(** * gcp-cloud-cost-optimizer: the two Cloud Functions, embedded and verified

    [src/cost_analyzer/main.py] (the reporting path) and
    [src/idle_shutdown/main.py] (the shutdown path) are translated function by
    function.  Python [float] is IEEE-754 binary64 and is modelled by Rocq's
    primitive [float]; a [dict] is a [gmap]; a remote call that may raise is a
    value of [result]; every remote call and log line is recorded in a trace of
    [event]s, so that "no query was made" and "stop was issued once" are
    statements about that trace.

    The inputs of a run are its configuration (the values [main] reads from
    the environment) and a snapshot of what the remote services answer.
    Credential discovery and the construction of the API clients are not part
    of the runs modelled here: the specification treats them as plumbing
    outside the core.  The one place where it matters to a statement, the
    monitoring client built before the [try] of the aggregator, is modelled
    by [get_cpu_avg_call] and [get_cpu_usage_call]. *)

From Stdlib Require Import ZArith Floats.
From Stdlib Require Import Ascii String.
From stdpp Require Import base option list strings gmap.

Set Warnings "-inexact-float".
Set Default Proof Using "Type".

(** ** Python values and control flow *)

Module Py.

(** Outcome of an expression evaluated inside [try: ... except Exception:]. *)
Inductive result (A : Type) : Type :=
| Returns (a : A)
| Raises.
Arguments Returns {A} a.
Arguments Raises {A}.

(** A lazy iterator (the pager behind [list_time_series]): it stops, yields
    one more element, or raises in the middle of the iteration. *)
Inductive iter (A : Type) : Type :=
| IterStop
| IterNext (x : A) (rest : iter A)
| IterRaise.
Arguments IterStop {A}.
Arguments IterNext {A} x rest.
Arguments IterRaise {A}.

Fixpoint iter_of_list {A} (l : list A) : iter A :=
  match l with
  | [] => IterStop
  | x :: l' => IterNext x (iter_of_list l')
  end.

(** Truth value of a [str]: only the empty string is falsy. *)
Definition truthy (s : string) : bool :=
  match s with
  | EmptyString => false
  | String _ _ => true
  end.

(** [float(n)] for a Python [int]: the nearest binary64, ties to even. *)
Definition float_of_Z (n : Z) : float :=
  SF2Prim (binary_normalize prec emax n 0 false).

(** [sum(vals)] as CPython up to 3.11 computes it: the accumulator starts at
    the integer [0] and the elements are added from left to right, one
    rounded addition each.  CPython 3.12 and later add floats differently:
    see [sum_compensated] below. *)
Definition sum (vals : list float) : float :=
  fold_left PrimFloat.add vals 0%float.

(** [len(vals)] used as the divisor of a float division. *)
Definition len {A} (vals : list A) : float :=
  float_of_Z (Z.of_nat (length vals)).

(** Nearest integer to [num / den] ([den > 0], [num >= 0]), ties to even. *)
Definition div_half_even (num den : Z) : Z :=
  let q := (num / den)%Z in
  let r := (num mod den)%Z in
  match (2 * r ?= den)%Z with
  | Lt => q
  | Gt => (q + 1)%Z
  | Eq => if Z.even q then q else (q + 1)%Z
  end.

(** [round(x, ndigits)] on a float, [ndigits >= 0].  CPython prints [x]
    correctly rounded to [ndigits] decimals (ties of the exact binary value to
    even) and reads the decimal string back with a correctly rounded [strtod];
    infinities, NaN and zeros are returned as they are, and a value that rounds
    to zero keeps its sign. *)
Definition round (x : float) (ndigits : nat) : float :=
  match Prim2SF x with
  | S754_finite s m e =>
      let scale := (10 ^ Z.of_nat ndigits)%Z in
      let n :=
        if (0 <=? e)%Z then (Z.pos m * 2 ^ e * scale)%Z
        else div_half_even (Z.pos m * scale) (2 ^ (- e)) in
      match n with
      | Z.pos p =>
          SF2Prim (SFdiv prec emax (S754_finite s p 0)
                                   (S754_finite false (Z.to_pos scale) 0))
      | _ => SF2Prim (S754_zero s)
      end
  | _ => x
  end.

(** How the interpreter's [sum] adds floats: one addition per element up
    to CPython 3.11, Neumaier's compensated summation from CPython 3.12. *)
Inductive summation : Type := Plain | Compensated.

(** One turn of the float loop of [sum] in CPython 3.12:
    [t = f_result + x], and the rounding error of that addition, recovered
    from the larger operand, is added to the compensation [c]. *)
Definition compensate (st : float * float) (x : float) : float * float :=
  let f_result := fst st in
  let c := snd st in
  let t := (f_result + x)%float in
  if (abs x <=? abs f_result)%float
  then (t, (c + ((f_result - t) + x))%float)
  else (t, (c + ((x - t) + f_result))%float).

(** [c && isfinite(c)]: the compensation is added at the end only when it
    is neither zero, nor infinite, nor NaN. *)
Definition finite_nonzero (c : float) : bool :=
  match Prim2SF c with
  | S754_finite _ _ _ => true
  | _ => false
  end.

(** [sum(vals)] on floats as CPython 3.12 and later compute it: the first
    element is added to the integer [0], the others go through the
    compensated loop, and the compensation is added last. *)
Definition sum_compensated (vals : list float) : float :=
  match vals with
  | [] => 0%float
  | x0 :: rest =>
      let st := fold_left compensate rest ((0 + x0)%float, 0%float) in
      if finite_nonzero (snd st) then (fst st + snd st)%float else fst st
  end.

(** The built-in [sum] of an interpreter of the given generation. *)
Definition builtin_sum (g : summation) (vals : list float) : float :=
  match g with
  | Plain => sum vals
  | Compensated => sum_compensated vals
  end.

End Py.

(** ** Data exchanged with the cloud services and produced by the functions *)

Module Data.

(** One point of a time series: [p.value] with or without a [double_value]. *)
Record point : Type := { double_value : option float }.

(** One series [s] of the monitoring answer, with its [s.points]. *)
Record time_series : Type := { points : list point }.

(** One row of the billing query result. *)
Record row : Type := {
  row_instance_name : option string;
  row_cost_24h : option float
}.

(** A raw VM record of [instances().list()].  The Compute API returns a
    [name] with every instance and both functions read it on every record;
    the other keys are read with [vm.get] and may be absent. *)
Record vm : Type := {
  vm_name : string;
  vm_id : option string;
  vm_labels : option (gmap string string);
  vm_machineType : option string;
  vm_status : option string
}.

(** The two values of the ["state"] key: ["Idle"] and ["Active"]. *)
Inductive state : Type := Idle | Active.

(** One element of [instances_report]. *)
Record instance_entry : Type := {
  ie_name : string;
  ie_zone : string;
  ie_status : string;
  ie_labels : gmap string string;
  ie_machine_type : string;
  ie_cpu_avg_1h_pct : float;
  ie_cpu_avg_12h_pct : float;
  ie_cost_24h : float;
  ie_state : state
}.

(** The [report] dictionary of the reporting path. *)
Record report : Type := {
  rp_project : string;
  rp_total_cost_24h : float;
  rp_instances : list instance_entry;
  rp_dry_run : bool
}.

(** The JSON body posted to SendGrid. *)
Record mail : Type := {
  mail_authorization : string;
  mail_to : string;
  mail_subject : string;
  mail_from : string;
  mail_content : report
}.

(** What [requests.post] does: it answers, or it raises [e] with [str(e)]. *)
Inductive post_outcome : Type :=
| PostResponse (status_code : Z) (text : string)
| PostRaises (msg : string).

(** The dictionaries returned by [send_report_via_sendgrid]. *)
Inductive send_result : Type :=
| MissingConfig
| Sent (status : Z)
| NotSent (status : Z) (body : string)
| SendException (exception : string).

(** The action lines of the shutdown path, one constructor per f-string;
    [cpu_pct] is the value the line prints with [:.2f]. *)
Inductive action : Type :=
| Skipping (name : string)
| DryRunWouldStop (name : string) (cpu_pct : float)
| Stopped (name : string) (cpu_pct : float)
| ErrorStopping (name : string)
| IsActive (name : string) (cpu_pct : float).

(** The triple returned by a Cloud Function: body (before [json.dumps]),
    status and headers. *)
Record response (A : Type) : Type := {
  body : A;
  status_code : Z;
  headers : list (string * string)
}.
Arguments body {A} _.
Arguments status_code {A} _.
Arguments headers {A} _.

End Data.

(** ** The outside world: remote calls, logging, and the trace of both *)

Module Sys.
Import Py Data.

Inductive log_entry : Type :=
| LogSkippingSend
| LogSendGridStatus (status_code : Z) (text : string)
| LogSendGridFailed
| LogEmailSendResult (r : send_result)
| LogMonitoringFailed
| LogListInstancesFailed (zone : string)
| LogStopFailed (name : string).

Inductive event : Type :=
| ZonesList
| InstancesList (zone : string)
| BillingQuery
| ListTimeSeries (instance_id : option string) (minutes : Z)
| InstancesStop (zone name : string)
| RequestsPost (m : mail)
| Log (entry : log_entry).

(** A snapshot of the collaborators: what each remote call answers. *)
Record world : Type := {
  (** [compute.zones().list(project).execute()]: raises, or a dictionary
      with or without ["items"], each item with or without ["name"] *)
  zones_list : result (option (list (option string)));
  (** [compute.instances().list(project, zone).execute()] *)
  instances_list : string -> result (option (list vm));
  (** [client.list_time_series] for an instance id and a window in minutes *)
  list_time_series : option string -> Z -> result (iter time_series);
  (** [list(client.query(sql).result())] *)
  billing_rows : result (list row);
  (** [compute.instances().stop(project, zone, instance).execute()] *)
  instances_stop : string -> string -> result unit;
  (** [requests.post(url, json=body, headers=headers, timeout=15)] *)
  requests_post : mail -> post_outcome
}.

(** Computations that make remote calls: the value and the calls made. *)
Definition io (A : Type) : Type := A * list event.

Definition ret {A} (a : A) : io A := (a, []).

Definition bind {A B} (m : io A) (k : A -> io B) : io B :=
  let r := k (fst m) in
  (fst r, snd m ++ snd r).

Definition emit (e : event) : io unit := (tt, [e]).

Notation "'let*' x ':=' c 'in' k" := (bind c (fun x => k))
  (at level 10, x name, c at level 100, k at level 200).

(** A [for x in xs:] loop whose body updates the loop-carried state. *)
Fixpoint for_each {S X} (xs : list X) (body : S -> X -> io S) (s : S) : io S :=
  match xs with
  | [] => ret s
  | x :: xs' => let* s' := body s x in for_each xs' body s'
  end.

End Sys.

(** ** Code shared verbatim by the two source files *)

Module Shared.
Import Py Data Sys.

(** The inner [for p in s.points] loop: [vals.append(v)] for every point
    whose [double_value] is not [None]. *)
Fixpoint collect_points (ps : list point) (vals : list float) : list float :=
  match ps with
  | [] => vals
  | p :: ps' =>
      match double_value p with
      | Some v => collect_points ps' (vals ++ [v])
      | None => collect_points ps' vals
      end
  end.

(** The outer [for s in series_iter] loop; the pager may raise on the way. *)
Fixpoint collect_series (series_iter : iter time_series) (vals : list float)
  : result (list float) :=
  match series_iter with
  | IterStop => Returns vals
  | IterNext s rest => collect_series rest (collect_points (points s) vals)
  | IterRaise => Raises
  end.

(** The body of the [try] of [get_cpu_avg] and [get_cpu_usage]. *)
Definition cpu_avg_try (w : world) (instance_id : option string) (minutes : Z)
  : result float :=
  match list_time_series w instance_id minutes with
  | Raises => Raises
  | Returns series_iter =>
      match collect_series series_iter [] with
      | Raises => Raises
      | Returns [] => Returns 0%float
      | Returns vals => Returns (Py.sum vals / Py.len vals)%float
      end
  end.

(** The same [try] body under an interpreter of generation [g]; [cpu_avg_try]
    is the case [Plain]. *)
Definition cpu_avg_try_on (g : summation) (w : world)
    (instance_id : option string) (minutes : Z) : result float :=
  match list_time_series w instance_id minutes with
  | Raises => Raises
  | Returns series_iter =>
      match collect_series series_iter [] with
      | Raises => Raises
      | Returns [] => Returns 0%float
      | Returns vals => Returns (builtin_sum g vals / Py.len vals)%float
      end
  end.

(** The fallback zone list. *)
Definition default_zones : list string := ["us-central1-a"].

(** [[z["name"] for z in items]]: a zone without ["name"] raises. *)
Fixpoint zone_names (items : list (option string)) : result (list string) :=
  match items with
  | [] => Returns []
  | None :: _ => Raises
  | Some n :: rest =>
      match zone_names rest with
      | Returns ns => Returns (n :: ns)
      | Raises => Raises
      end
  end.

(** The zones the walk visits (the [try] around [zones().list()]). *)
Definition zones_of (w : world) : list string :=
  match zones_list w with
  | Returns (Some items) =>
      match zone_names items with
      | Returns zones => zones
      | Raises => default_zones
      end
  | Returns None => default_zones
  | Raises => default_zones
  end.

Definition list_zones (w : world) : io (list string) :=
  let* _ := emit ZonesList in
  ret (zones_of w).

(** [s.split(sep)] for a one-character separator. *)
Fixpoint split (sep : Ascii.ascii) (s : string) : list string :=
  match s with
  | EmptyString => [EmptyString]
  | String c rest =>
      let parts := split sep rest in
      if Ascii.eqb c sep then EmptyString :: parts
      else match parts with
           | p :: ps => String c p :: ps
           | [] => [String c EmptyString]
           end
  end.

End Shared.

(** ** src/cost_analyzer/main.py *)

Module CostAnalyzer.
Import Py Data Sys Shared.

Record config : Type := {
  project : string;
  cpu_threshold : float;
  dry_run : bool;
  admin_email : string;
  sendgrid_key : string;
  from_email : string
}.

(** The dictionary comprehension of [query_billing]: rows with a falsy
    [instance_name] are skipped, [float(None)] raises, a later row overwrites
    an earlier one with the same name. *)
Fixpoint billing_dict (rows : list row) (d : gmap string float)
  : result (gmap string float) :=
  match rows with
  | [] => Returns d
  | r :: rest =>
      match row_instance_name r with
      | Some n =>
          if truthy n then
            match row_cost_24h r with
            | Some c => billing_dict rest (<[n := c]> d)
            | None => Raises
            end
          else billing_dict rest d
      | None => billing_dict rest d
      end
  end.

Definition query_billing (w : world) : io (gmap string float) :=
  let* _ := emit BillingQuery in
  ret (match billing_rows w with
       | Raises => ∅
       | Returns rows =>
           match billing_dict rows ∅ with
           | Returns d => d
           | Raises => ∅
           end
       end).

Definition get_cpu_avg (w : world) (instance_id : option string) (minutes : Z)
  : io float :=
  let* _ := emit (ListTimeSeries instance_id minutes) in
  ret (match cpu_avg_try w instance_id minutes with
       | Returns avg => avg
       | Raises => 0%float
       end).

(** A whole call of [get_cpu_avg], from its first statement.  [client] is
    what [monitoring_v3.MetricServiceClient()] does at line 37, before the
    [try]: when it raises, the exception leaves the function.  [get_cpu_avg]
    above is the rest of the call, with the client built, on an interpreter
    whose [sum] is [Plain]. *)
Definition get_cpu_avg_call (g : summation) (client : result unit)
    (w : world) (instance_id : option string) (minutes : Z)
  : result (io float) :=
  match client with
  | Raises => Raises
  | Returns _ =>
      Returns (let* _ := emit (ListTimeSeries instance_id minutes) in
               ret (match cpu_avg_try_on g w instance_id minutes with
                    | Returns avg => avg
                    | Raises => 0%float
                    end))
  end.

Definition mapping : gmap string float :=
  <["e2-micro" := 0.0076%float]> (
  <["e2-small" := 0.0166%float]> (
  <["e2-medium" := 0.0332%float]> (
  <["n1-standard-1" := 0.0475%float]> (
  <["n1-standard-2" := 0.0950%float]> (
  <["e2-standard-4" := 0.05%float]> (
  <["e2-standard-2" := 0.03%float]> ∅)))))).

Definition estimate_cost_by_machine (machine_type : string) : float :=
  default 0.05%float (mapping !! machine_type).

Definition send_report_via_sendgrid (w : world)
    (sendgrid_key admin_email from_email : string) (report : report)
  : io send_result :=
  if negb (truthy sendgrid_key) || negb (truthy admin_email)
     || negb (truthy from_email) then
    let* _ := emit (Log LogSkippingSend) in
    ret MissingConfig
  else
    let body := {| mail_authorization := "Bearer " ++ sendgrid_key;
                   mail_to := admin_email;
                   mail_subject := "Daily Cost Report for " ++ rp_project report;
                   mail_from := from_email;
                   mail_content := report |} in
    let* _ := emit (RequestsPost body) in
    match requests_post w body with
    | PostResponse status text =>
        let* _ := emit (Log (LogSendGridStatus status text)) in
        if bool_decide (status = 200%Z ∨ status = 202%Z) then ret (Sent status)
        else ret (NotSent status text)
    | PostRaises e =>
        let* _ := emit (Log LogSendGridFailed) in
        ret (SendException e)
    end.

(** Lines 137-140 of [main]: the billed cost when the name is in
    [billing_map], else the hourly estimate times 24. *)
Definition resolve_cost (name machine_type : string)
    (billing_map : gmap string float) : float :=
  match billing_map !! name with
  | Some cost => cost
  | None =>
      let est_hourly := estimate_cost_by_machine machine_type in
      (est_hourly * 24)%float
  end.

(** [machine_type_full.split("/")[-1] if machine_type_full else ""]. *)
Definition machine_type_of (machine_type_full : string) : string :=
  if truthy machine_type_full
  then List.last (split "/"%char machine_type_full) EmptyString
  else EmptyString.

(** The two variables the loops of [main] update. *)
Record acc : Type := {
  instances_report : list instance_entry;
  total_cost : float
}.

(** The body of [for vm in resp["items"]]. *)
Definition process_vm (cfg : config) (w : world)
    (billing_map : gmap string float) (zone : string) (st : acc) (v : vm)
  : io acc :=
  let name := vm_name v in
  let labels := default ∅ (vm_labels v) in
  let instance_id := vm_id v in
  let machine_type_full := default EmptyString (vm_machineType v) in
  let machine_type := machine_type_of machine_type_full in
  let status := default "UNKNOWN" (vm_status v) in
  let* cpu_avg_1h := get_cpu_avg w instance_id 60 in
  let* cpu_avg_12h := get_cpu_avg w instance_id (60 * 12) in
  let cost := resolve_cost name machine_type billing_map in
  let total := (total_cost st + cost)%float in
  let state :=
    if (cpu_avg_12h * 100 <? cpu_threshold cfg)%float then Idle else Active in
  ret {| instances_report :=
           instances_report st ++
           [ {| ie_name := name;
                ie_zone := zone;
                ie_status := status;
                ie_labels := labels;
                ie_machine_type := machine_type;
                ie_cpu_avg_1h_pct := Py.round (cpu_avg_1h * 100) 2;
                ie_cpu_avg_12h_pct := Py.round (cpu_avg_12h * 100) 2;
                ie_cost_24h := Py.round cost 4;
                ie_state := state |} ];
         total_cost := total |}.

(** The body of [for zone in zones]. *)
Definition process_zone (cfg : config) (w : world)
    (billing_map : gmap string float) (st : acc) (zone : string) : io acc :=
  let* _ := emit (InstancesList zone) in
  match instances_list w zone with
  | Raises => ret st
  | Returns None => ret st
  | Returns (Some items) => for_each items (process_vm cfg w billing_map zone) st
  end.

Definition main (cfg : config) (w : world) : io (response report) :=
  let* zones := list_zones w in
  let* billing_map := query_billing w in
  let* st := for_each zones (process_zone cfg w billing_map)
               {| instances_report := []; total_cost := 0%float |} in
  let report := {| rp_project := project cfg;
                   rp_total_cost_24h := Py.round (total_cost st) 4;
                   rp_instances := instances_report st;
                   rp_dry_run := dry_run cfg |} in
  let* send_result :=
    send_report_via_sendgrid w (sendgrid_key cfg) (admin_email cfg)
                             (from_email cfg) report in
  let* _ := emit (Log (LogEmailSendResult send_result)) in
  ret {| body := report;
         status_code := 200;
         headers := [("Content-Type", "application/json")] |}.

End CostAnalyzer.

(** ** src/idle_shutdown/main.py *)

Module IdleShutdown.
Import Py Data Sys Shared.

Record config : Type := {
  project : string;
  cpu_threshold : float;
  dry_run : bool
}.

(** Same [try] body as [get_cpu_avg]; the handler also logs. [zone] is a
    parameter the function never reads. *)
Definition get_cpu_usage (w : world) (zone : string)
    (instance_id : option string) (minutes : Z) : io float :=
  let* _ := emit (ListTimeSeries instance_id minutes) in
  match cpu_avg_try w instance_id minutes with
  | Returns avg => ret avg
  | Raises =>
      let* _ := emit (Log LogMonitoringFailed) in
      ret 0%float
  end.

(** A whole call of [get_cpu_usage], from its first statement; [client] is
    what [monitoring_v3.MetricServiceClient()] does at line 10, before the
    [try]. *)
Definition get_cpu_usage_call (g : summation) (client : result unit)
    (w : world) (zone : string) (instance_id : option string) (minutes : Z)
  : result (io float) :=
  match client with
  | Raises => Raises
  | Returns _ =>
      Returns (let* _ := emit (ListTimeSeries instance_id minutes) in
               match cpu_avg_try_on g w instance_id minutes with
               | Returns avg => ret avg
               | Raises =>
                   let* _ := emit (Log LogMonitoringFailed) in
                   ret 0%float
               end)
  end.

(** The body of [for vm in resp["items"]]; [actions] is the list the loop
    appends to. *)
Definition process_vm (cfg : config) (w : world) (zone : string)
    (actions : list action) (v : vm) : io (list action) :=
  let name := vm_name v in
  let instance_id := vm_id v in
  let labels := default ∅ (vm_labels v) in
  if bool_decide (labels !! "auto-shutdown" ≠ Some "true") then
    ret (actions ++ [Skipping name])
  else
    let* cpu_avg_12h := get_cpu_usage w zone instance_id (60 * 12) in
    let cpu_pct := (cpu_avg_12h * 100)%float in
    if (cpu_pct <? cpu_threshold cfg)%float then
      if dry_run cfg then
        ret (actions ++ [DryRunWouldStop name cpu_pct])
      else
        let* _ := emit (InstancesStop zone name) in
        match instances_stop w zone name with
        | Returns _ => ret (actions ++ [Stopped name cpu_pct])
        | Raises =>
            let* _ := emit (Log (LogStopFailed name)) in
            ret (actions ++ [ErrorStopping name])
        end
    else
      ret (actions ++ [IsActive name cpu_pct]).

(** The body of [for zone in zones]. *)
Definition process_zone (cfg : config) (w : world)
    (actions : list action) (zone : string) : io (list action) :=
  let* _ := emit (InstancesList zone) in
  match instances_list w zone with
  | Raises =>
      let* _ := emit (Log (LogListInstancesFailed zone)) in
      ret actions
  | Returns None => ret actions
  | Returns (Some items) => for_each items (process_vm cfg w zone) actions
  end.

Definition main (cfg : config) (w : world) : io (response (list action)) :=
  let* zones := list_zones w in
  let* actions := for_each zones (process_zone cfg w) [] in
  ret {| body := actions;
         status_code := 200;
         headers := [("Content-Type", "application/json")] |}.

End IdleShutdown.

(** ** The vocabulary of the specification *)

Module Spec.
Import Py Data Sys Shared.

(** The order relations of Python floats, as propositions. *)
Definition flt (x y : float) : Prop := (x <? y)%float = true.
Definition fle (x y : float) : Prop := (x <=? y)%float = true.
Definition feq (x y : float) : Prop := (x =? y)%float = true.

(** The instances one zone contributes to the walk: none when the listing
    raises or has no ["items"]. *)
Definition zone_items (w : world) (zone : string) : list vm :=
  match instances_list w zone with
  | Returns (Some items) => items
  | _ => []
  end.

(** The fleet walk: every VM with its zone, zone-major, then in the order
    of the zone's listing. *)
Definition fleet_walk (w : world) : list (string * vm) :=
  flat_map (fun zone => map (pair zone) (zone_items w zone)) (zones_of w).

(** What a completed iteration yielded, or [Raises] when the iterator
    raised before stopping. *)
Fixpoint iter_outcome {A} (it : iter A) : result (list A) :=
  match it with
  | IterStop => Returns []
  | IterNext x rest =>
      match iter_outcome rest with
      | Returns xs => Returns (x :: xs)
      | Raises => Raises
      end
  | IterRaise => Raises
  end.

(** Every numeric point of every series, in the order received. *)
Definition all_values (series : list time_series) : list float :=
  flat_map (fun s => omap double_value (points s)) series.

(** The mean as Python computes it: [sum(vals) / len(vals)]. *)
Definition arithmetic_mean (vals : list float) : float :=
  (Py.sum vals / Py.len vals)%float.

(** The plain float sum, by its partial sums: the sum of no value is 0,
    and the sum of [v1 .. vk] is the sum of [v1 .. v(k-1)] plus [vk], rounded.
    The argument is the list of values, last one first. *)
Fixpoint partial_sum (rvals : list float) : float :=
  match rvals with
  | [] => 0%float
  | v :: earlier => (partial_sum earlier + v)%float
  end.

Definition plain_sum (vals : list float) : float := partial_sum (rev vals).

(** Neumaier's summation, by its partial states [(s, c)]: running sum and
    accumulated rounding error after the values seen so far.  [later] holds
    the values after the first, last one first. *)
Fixpoint neumaier_state (first : float) (later : list float) : float * float :=
  match later with
  | [] => ((0 + first)%float, 0%float)
  | x :: earlier =>
      let st := neumaier_state first earlier in
      let s := st.1 in
      let c := st.2 in
      let t := (s + x)%float in
      let err := if (abs x <=? abs s)%float
                 then ((s - t) + x)%float else ((x - t) + s)%float in
      (t, (c + err)%float)
  end.

Definition neumaier_sum (vals : list float) : float :=
  match vals with
  | [] => 0%float
  | first :: rest =>
      let st := neumaier_state first (rev rest) in
      let s := st.1 in
      let c := st.2 in
      match Prim2SF c with
      | S754_finite _ _ _ => (s + c)%float
      | _ => s
      end
  end.

(** The float sum of the values under either generation of [sum]. *)
Definition float_sum (g : summation) (vals : list float) : float :=
  match g with
  | Plain => plain_sum vals
  | Compensated => neumaier_sum vals
  end.

(** The number of values as a float: the nearest binary64 to [n]. *)
Definition count_as_float (n : nat) : float :=
  SF2Prim (binary_normalize prec emax (Z.of_nat n) 0 false).

(** The mean the aggregator computes: float sum divided by the count. *)
Definition float_mean (g : summation) (vals : list float) : float :=
  (float_sum g vals / count_as_float (length vals))%float.

(** The exact value of a finite float, as [m * 2^e]. *)
Definition exact (x : float) : option (Z * Z) :=
  match Prim2SF x with
  | S754_zero _ => Some (0%Z, 0%Z)
  | S754_finite s m e => Some (if s then Z.neg m else Z.pos m, e)
  | _ => None
  end.

(** The exact sum of two such values. *)
Definition exact_add (a b : Z * Z) : Z * Z :=
  let e := Z.min a.2 b.2 in
  ((a.1 * 2 ^ (a.2 - e) + b.1 * 2 ^ (b.2 - e))%Z, e).

Fixpoint exact_sum (vals : list float) : option (Z * Z) :=
  match vals with
  | [] => Some (0%Z, 0%Z)
  | v :: rest =>
      match exact v, exact_sum rest with
      | Some a, Some b => Some (exact_add a b)
      | _, _ => None
      end
  end.

(** The arithmetic mean of finite values, computed exactly and rounded once
    to the nearest binary64 (ties to even). *)
Definition nearest_mean (vals : list float) : option float :=
  match vals, exact_sum vals with
  | _ :: _, Some (m, e) =>
      let n := S754_finite false (Pos.of_nat (length vals)) 0 in
      Some (match m with
            | Z0 => 0%float
            | Z.pos p => SF2Prim (SFdiv prec emax (S754_finite false p e) n)
            | Z.neg p => SF2Prim (SFdiv prec emax (S754_finite true p e) n)
            end)
  | _, _ => None
  end.

(** The 12-hour reading of an instance: what the aggregator returns for
    the window of [60*12] minutes. *)
Definition reading_12h (w : world) (v : vm) : float :=
  (CostAnalyzer.get_cpu_avg w (vm_id v) (60 * 12)).1.

(** The 1-hour reading of an instance. *)
Definition reading_1h (w : world) (v : vm) : float :=
  (CostAnalyzer.get_cpu_avg w (vm_id v) 60).1.

(** The value of [total_cost] after [total_cost += cost] for each cost in
    turn, starting from [0.0]. *)
Definition running_total (costs : list float) : float :=
  fold_left PrimFloat.add costs 0%float.

(** The billing map a run works with. *)
Definition billing_map_of (w : world) : gmap string float :=
  (CostAnalyzer.query_billing w).1.

(** The machine type of a VM: the last path segment of its [machineType]. *)
Definition vm_machine_type (v : vm) : string :=
  CostAnalyzer.machine_type_of (default EmptyString (vm_machineType v)).

(** The full-precision cost the reporting path resolves for a VM. *)
Definition vm_cost (billing_map : gmap string float) (v : vm) : float :=
  CostAnalyzer.resolve_cost (vm_name v) (vm_machine_type v) billing_map.

(** [classify(record, cost, cpu1h, cpu12h, threshold_pct)] of the reporting
    path, with the rounding the report applies to the displayed figures. *)
Definition classify (zone : string) (v : vm) (cost cpu1h cpu12h : float)
    (threshold_pct : float) : instance_entry :=
  {| ie_name := vm_name v;
     ie_zone := zone;
     ie_status := default "UNKNOWN" (vm_status v);
     ie_labels := default ∅ (vm_labels v);
     ie_machine_type := vm_machine_type v;
     ie_cpu_avg_1h_pct := Py.round (cpu1h * 100) 2;
     ie_cpu_avg_12h_pct := Py.round (cpu12h * 100) 2;
     ie_cost_24h := Py.round cost 4;
     ie_state := if (cpu12h * 100 <? threshold_pct)%float then Idle else Active |}.

(** The record of one walked VM in a run over [w] with threshold [t]. *)
Definition record_of (t : float) (w : world) (zv : string * vm) : instance_entry :=
  classify zv.1 zv.2 (vm_cost (billing_map_of w) zv.2)
           (reading_1h w zv.2) (reading_12h w zv.2) t.

(** An instance is opted in when its labels map [auto-shutdown] to ["true"]. *)
Definition opted_in (v : vm) : Prop :=
  default ∅ (vm_labels v) !! "auto-shutdown" = Some "true".

#[global] Instance opted_in_dec (v : vm) : Decision (opted_in v).
Proof. unfold opted_in. apply _. Defined.

(** The 12-hour reading as a percentage, before any rounding. *)
Definition cpu_pct_12h (w : world) (v : vm) : float :=
  (reading_12h w v * 100)%float.

(** The decision of the shutdown path for one walked VM (section 4.4 of the
    specification): Skip without the label, else by the 12-hour reading. *)
Definition decide_action (t : float) (dry : bool) (w : world)
    (zv : string * vm) : action :=
  let name := vm_name zv.2 in
  if bool_decide (opted_in zv.2) then
    if (cpu_pct_12h w zv.2 <? t)%float then
      if dry then DryRunWouldStop name (cpu_pct_12h w zv.2)
      else match instances_stop w zv.1 name with
           | Returns _ => Stopped name (cpu_pct_12h w zv.2)
           | Raises => ErrorStopping name
           end
    else IsActive name (cpu_pct_12h w zv.2)
  else Skipping name.

(** The remote calls and log lines the shutdown path makes for one VM. *)
Definition vm_calls (cfg : IdleShutdown.config) (w : world)
    (zv : string * vm) : list event :=
  (IdleShutdown.process_vm cfg w zv.1 [] zv.2).2.

(** The remote calls and log lines made while one zone is processed. *)
Definition zone_calls (cfg : IdleShutdown.config) (w : world)
    (zone : string) : list event :=
  (IdleShutdown.process_zone cfg w [] zone).2.

(** The instances the shutdown path stops, or tries to: opted in, with a
    12-hour percentage below the threshold. *)
Definition stop_candidate (t : float) (w : world) (zv : string * vm) : bool :=
  bool_decide (opted_in zv.2) && (cpu_pct_12h w zv.2 <? t)%float.

Definition action_name (a : action) : string :=
  match a with
  | Skipping n | DryRunWouldStop n _ | Stopped n _ | ErrorStopping n
  | IsActive n _ => n
  end.

(** The classification an action line stands for. *)
Definition action_state (a : action) : option state :=
  match a with
  | Skipping _ => None
  | DryRunWouldStop _ _ | Stopped _ _ | ErrorStopping _ => Some Idle
  | IsActive _ _ => Some Active
  end.

(** A report entry with its 1-hour figure blanked. *)
Definition without_1h (e : instance_entry) : instance_entry :=
  {| ie_name := ie_name e;
     ie_zone := ie_zone e;
     ie_status := ie_status e;
     ie_labels := ie_labels e;
     ie_machine_type := ie_machine_type e;
     ie_cpu_avg_1h_pct := 0;
     ie_cpu_avg_12h_pct := ie_cpu_avg_12h_pct e;
     ie_cost_24h := ie_cost_24h e;
     ie_state := ie_state e |}.

(** The same configuration with other notification settings. *)
Definition with_email (cfg : CostAnalyzer.config)
    (key admin from : string) : CostAnalyzer.config :=
  {| CostAnalyzer.project := CostAnalyzer.project cfg;
     CostAnalyzer.cpu_threshold := CostAnalyzer.cpu_threshold cfg;
     CostAnalyzer.dry_run := CostAnalyzer.dry_run cfg;
     CostAnalyzer.admin_email := admin;
     CostAnalyzer.sendgrid_key := key;
     CostAnalyzer.from_email := from |}.

(** The same world with another SendGrid behaviour. *)
Definition with_post (w : world) (post : mail -> post_outcome) : world :=
  {| zones_list := zones_list w;
     instances_list := instances_list w;
     list_time_series := list_time_series w;
     billing_rows := billing_rows w;
     instances_stop := instances_stop w;
     requests_post := post |}.

(** The events of the notification attempt: the POST and the log lines. *)
Definition is_send_event (e : event) : bool :=
  match e with RequestsPost _ | Log _ => true | _ => false end.

Definition is_metrics_query (e : event) : bool :=
  match e with ListTimeSeries _ _ => true | _ => false end.

Definition is_stop_call (e : event) : bool :=
  match e with InstancesStop _ _ => true | _ => false end.

End Spec.

(** ** A concrete fleet *)

Module Examples.
Import Py Data Sys Shared Spec.

Definition vm_a : vm :=
  {| vm_name := "vm-a";
     vm_id := Some "101";
     vm_labels := Some {[ "auto-shutdown" := "true" ]};
     vm_machineType :=
       Some "https://www.googleapis.com/compute/v1/projects/p/zones/us-central1-a/machineTypes/e2-medium";
     vm_status := Some "RUNNING" |}.

Definition vm_b : vm :=
  {| vm_name := "vm-b";
     vm_id := Some "102";
     vm_labels := None;
     vm_machineType := Some "zones/us-central1-a/machineTypes/e2-micro";
     vm_status := Some "RUNNING" |}.

Definition vm_c : vm :=
  {| vm_name := "vm-c";
     vm_id := Some "103";
     vm_labels := Some {[ "auto-shutdown" := "false" ]};
     vm_machineType := Some "zones/europe-west1-b/machineTypes/n1-standard-1";
     vm_status := None |}.

Definition series (vals : list float) : time_series :=
  {| points := map (fun v => {| double_value := Some v |}) vals |}.

(** Two zones, three instances; [vm-a] has been at 2% for twelve hours,
    [vm-b] at 10%, and the monitoring query for [vm-c] fails.  The billing
    export knows [vm-a] and [vm-b] only. *)
Definition fleet (stop : result unit) (post : post_outcome) : world :=
  {| zones_list := Returns (Some [Some "us-central1-a"; Some "europe-west1-b"]);
     instances_list := fun zone =>
       if String.eqb zone "us-central1-a" then Returns (Some [vm_a; vm_b])
       else if String.eqb zone "europe-west1-b" then Returns (Some [vm_c])
       else Raises;
     list_time_series := fun id minutes =>
       if bool_decide (id = Some "101") then
         if (minutes =? 720)%Z
         then Returns (iter_of_list [series [0.01; 0.03]%float; series [0.02]%float])
         else Returns (iter_of_list [series [0.5]%float])
       else if bool_decide (id = Some "102") then
         Returns (iter_of_list [series [0.10]%float])
       else Raises;
     billing_rows :=
       Returns [ {| row_instance_name := Some "vm-a"; row_cost_24h := Some 1.00004%float |};
                 {| row_instance_name := Some "vm-b"; row_cost_24h := Some 2.00004%float |};
                 {| row_instance_name := None; row_cost_24h := Some 7%float |} ];
     instances_stop := fun _ _ => stop;
     requests_post := fun _ => post |}.

(** The same fleet seen with other 1-hour readings. *)
Definition fleet_other_1h : world :=
  let w := fleet (Returns tt) (PostRaises "timeout") in
  {| zones_list := zones_list w;
     instances_list := instances_list w;
     list_time_series := fun id minutes =>
       if (minutes =? 60)%Z then Returns (iter_of_list [series [0.9]%float])
       else list_time_series w id minutes;
     billing_rows := billing_rows w;
     instances_stop := instances_stop w;
     requests_post := requests_post w |}.

(** A billing export in which an adjustment made [vm-a] net negative. *)
Definition fleet_refund : world :=
  let w := fleet (Returns tt) (PostRaises "timeout") in
  {| zones_list := zones_list w;
     instances_list := instances_list w;
     list_time_series := list_time_series w;
     billing_rows :=
       Returns [ {| row_instance_name := Some "vm-a"; row_cost_24h := Some (-1.5)%float |} ];
     instances_stop := instances_stop w;
     requests_post := requests_post w |}.

(** A monitoring service that reports 10%, 20% and 30% for every instance
    and every window. *)
Definition tenths : world :=
  let w := fleet (Returns tt) (PostRaises "timeout") in
  {| zones_list := zones_list w;
     instances_list := instances_list w;
     list_time_series := fun _ _ =>
       Returns (iter_of_list [series [0.1; 0.2]%float; series [0.3]%float]);
     billing_rows := billing_rows w;
     instances_stop := instances_stop w;
     requests_post := requests_post w |}.

Definition report_cfg : CostAnalyzer.config :=
  {| CostAnalyzer.project := "demo";
     CostAnalyzer.cpu_threshold := 5;
     CostAnalyzer.dry_run := true;
     CostAnalyzer.admin_email := "ops@example.com";
     CostAnalyzer.sendgrid_key := "key";
     CostAnalyzer.from_email := "bot@example.com" |}.

Definition shutdown_cfg (dry : bool) : IdleShutdown.config :=
  {| IdleShutdown.project := "demo";
     IdleShutdown.cpu_threshold := 5;
     IdleShutdown.dry_run := dry |}.

End Examples.

(** ** Configuration read from the environment (the first lines of both [main]) *)

Module Config.
Import Py.

(** [c.lower()] on one character: [A]..[Z] become [a]..[z].  Other bytes are
    kept; no character outside [T], [R], [U], [E] lower-cases to a letter of
    ["true"], so the test below agrees with Python on every string. *)
Definition lower_char (c : Ascii.ascii) : Ascii.ascii :=
  let n := Ascii.N_of_ascii c in
  if ((65 <=? n) && (n <=? 90))%N then Ascii.ascii_of_N (n + 32) else c.

Fixpoint lower (s : string) : string :=
  match s with
  | EmptyString => EmptyString
  | String c rest => String (lower_char c) (lower rest)
  end.

(** [os.environ.get("DRY_RUN", "true").lower() == "true"]. *)
Definition read_dry_run (environ : gmap string string) : bool :=
  String.eqb (lower (default "true" (environ !! "DRY_RUN"))) "true".

(** Truth value of [os.environ.get(...)] or of [default_project]: [None]
    and the empty string are falsy. *)
Definition truthy_opt (v : option string) : bool :=
  match v with
  | Some s => truthy s
  | None => false
  end.

(** [a or b]. *)
Definition py_or (a b : option string) : option string :=
  if truthy_opt a then a else b.

(** Line 101 of [cost_analyzer/main.py]. *)
Definition report_project (environ : gmap string string)
    (default_project : option string) : option string :=
  py_or (py_or (environ !! "GCP_PROJECT") (environ !! "GOOGLE_CLOUD_PROJECT"))
        default_project.

(** Line 52 of [idle_shutdown/main.py]; [default_project] is [None] when
    credential discovery failed. *)
Definition shutdown_project (environ : gmap string string)
    (default_project : option string) : option string :=
  py_or (py_or (py_or (environ !! "GCP_PROJECT")
                      (environ !! "GOOGLE_CLOUD_PROJECT"))
               default_project)
        (environ !! "PROJECT").

End Config.

(** ** Further vocabulary: the calls of a run, the billing rows, path strings *)

Module Observe.
Import Py Data Sys Shared Spec.

Definition is_post (e : event) : bool :=
  match e with RequestsPost _ => true | _ => false end.

Definition is_billing_query (e : event) : bool :=
  match e with BillingQuery => true | _ => false end.

Definition is_instances_list (e : event) : bool :=
  match e with InstancesList _ => true | _ => false end.

Definition is_log (e : event) : bool :=
  match e with Log _ => true | _ => false end.

(** Whether a remote call raised. *)
Definition raised {A} (r : result A) : bool :=
  match r with Raises => true | Returns _ => false end.

(** The two monitoring queries the reporting path makes for a VM: the
    1-hour window, then the 12-hour window. *)
Definition report_queries (v : vm) : list event :=
  [ListTimeSeries (vm_id v) 60; ListTimeSeries (vm_id v) (60 * 12)].

(** The remote calls of the reporting path for one zone. *)
Definition report_zone_calls (w : world) (zone : string) : list event :=
  InstancesList zone :: flat_map report_queries (zone_items w zone).

(** The three notification settings are all non-empty. *)
Definition configured (key admin from : string) : bool :=
  truthy key && truthy admin && truthy from.

(** The request body and headers [send_report_via_sendgrid] builds. *)
Definition mail_of (key admin from : string) (r : report) : mail :=
  {| mail_authorization := "Bearer " ++ key;
     mail_to := admin;
     mail_subject := "Daily Cost Report for " ++ rp_project r;
     mail_from := from;
     mail_content := r |}.

(** A billing row the dictionary comprehension keeps: its [instance_name]
    is neither [None] nor empty. *)
Definition kept (r : row) : bool :=
  match row_instance_name r with
  | Some n => truthy n
  | None => false
  end.

Definition row_named (n : string) (r : row) : bool :=
  bool_decide (row_instance_name r = Some n).

(** The cost of the last row named [n], if there is one. *)
Definition last_cost (n : string) (rows : list row) : option float :=
  last (omap row_cost_24h (List.filter (row_named n) rows)).

(** [sep.join(parts)]. *)
Fixpoint join (sep : string) (parts : list string) : string :=
  match parts with
  | [] => EmptyString
  | [p] => p
  | p :: ps => p ++ sep ++ join sep ps
  end.

(** [c in s] for a character. *)
Fixpoint contains (c : Ascii.ascii) (s : string) : bool :=
  match s with
  | EmptyString => false
  | String c' rest => Ascii.eqb c' c || contains c rest
  end.

(** The name on a dry-run line. *)
Definition would_stop (a : action) : option string :=
  match a with DryRunWouldStop n _ => Some n | _ => None end.

(** The instance name of a stop call. *)
Definition stopped_name (e : event) : option string :=
  match e with InstancesStop _ n => Some n | _ => None end.

(** The calls and log lines of the shutdown path for one VM, spelled out. *)
Definition shutdown_vm_trace (t : float) (dry : bool) (w : world)
    (zv : string * vm) : list event :=
  if bool_decide (opted_in zv.2) then
    ListTimeSeries (vm_id zv.2) (60 * 12)
    :: (if raised (cpu_avg_try w (vm_id zv.2) (60 * 12))
        then [Log LogMonitoringFailed] else [])
    ++ (if stop_candidate t w zv && negb dry then
          InstancesStop zv.1 (vm_name zv.2)
          :: (if raised (instances_stop w zv.1 (vm_name zv.2))
              then [Log (LogStopFailed (vm_name zv.2))] else [])
        else [])
  else [].

(** The calls and log lines of the shutdown path for one zone. *)
Definition shutdown_zone_trace (t : float) (dry : bool) (w : world)
    (zone : string) : list event :=
  InstancesList zone
  :: (if raised (instances_list w zone)
      then [Log (LogListInstancesFailed zone)] else [])
  ++ flat_map (shutdown_vm_trace t dry w) (map (pair zone) (zone_items w zone)).

(** The name on an error line. *)
Definition error_name (a : action) : option string :=
  match a with ErrorStopping n => Some n | _ => None end.

(** The name in the log line of a failed stop. *)
Definition stop_failure_logged (e : event) : option string :=
  match e with Log (LogStopFailed n) => Some n | _ => None end.

(** The zone in the log line of a failed instance listing. *)
Definition listing_failure_logged (e : event) : option string :=
  match e with Log (LogListInstancesFailed z) => Some z | _ => None end.

(** Monitoring has nothing to say about a VM over the 12-hour window: the
    query raises, the iteration raises, or no point carries a number. *)
Definition no_data (w : world) (v : vm) : Prop :=
  match list_time_series w (vm_id v) (60 * 12) with
  | Raises => True
  | Returns it =>
      match iter_outcome it with
      | Raises => True
      | Returns series => all_values series = []
      end
  end.

(** One zone with the opted-in [vm-a], and a monitoring service that
    fails every query. *)
Definition monitoring_down : world :=
  {| zones_list := Returns (Some [Some "europe-west1-b"]);
     instances_list := fun _ => Returns (Some [Examples.vm_a]);
     list_time_series := fun _ _ => Raises;
     billing_rows := Raises;
     instances_stop := fun _ _ => Returns tt;
     requests_post := fun _ => PostRaises "" |}.

(** A VM record with nothing but its name, and a fleet made of it in the
    fallback zone, with billing unavailable. *)
Definition bare_vm : vm :=
  {| vm_name := "vm-x"; vm_id := None; vm_labels := None;
     vm_machineType := None; vm_status := None |}.

Definition bare_fleet : world :=
  {| zones_list := Raises;
     instances_list := fun _ => Returns (Some [bare_vm]);
     list_time_series := fun _ _ => Raises;
     billing_rows := Raises;
     instances_stop := fun _ _ => Raises;
     requests_post := fun _ => PostRaises "" |}.

(** A world in which every remote call fails. *)
Definition outage : world :=
  {| zones_list := Raises;
     instances_list := fun _ => Raises;
     list_time_series := fun _ _ => Raises;
     billing_rows := Raises;
     instances_stop := fun _ _ => Raises;
     requests_post := fun _ => PostRaises "connection refused" |}.

End Observe.

(** ** Facts about the trace monad and the loops *)

Section IoFacts.
Import Py Data Sys.

Lemma bind_ret_l {A B} (a : A) (k : A -> io B) : bind (ret a) k = k a.
Proof. unfold bind, ret; simpl. by destruct (k a). Qed.

Lemma bind_pair {A B} (a : A) (t : list event) (k : A -> io B) :
  bind (a, t) k = ((k a).1, t ++ (k a).2).
Proof. reflexivity. Qed.

Lemma bind_fst {A B} (m : io A) (k : A -> io B) : (bind m k).1 = (k m.1).1.
Proof. reflexivity. Qed.

Lemma bind_snd {A B} (m : io A) (k : A -> io B) :
  (bind m k).2 = m.2 ++ (k m.1).2.
Proof. reflexivity. Qed.

Lemma bind_pair_eta {A B} (m : io A) (k : A -> io B) :
  bind m k = ((k m.1).1, m.2 ++ (k m.1).2).
Proof. reflexivity. Qed.

Lemma emit_bind {B} (e : event) (k : unit -> io B) :
  bind (emit e) k = ((k tt).1, e :: (k tt).2).
Proof. reflexivity. Qed.

(** A loop whose body appends [g x] to the accumulated list and makes the
    calls [ev x] appends, in order, the [g x] of every element. *)
Lemma for_each_extend {X A} (g : X -> list A) (ev : X -> list event)
    (body : list A -> X -> io (list A)) (xs : list X) :
  (forall acc x, body acc x = (acc ++ g x, ev x)) ->
  forall acc, for_each xs body acc = (acc ++ flat_map g xs, flat_map ev xs).
Proof.
  intros Hbody. induction xs as [|x xs IH]; intros acc; simpl.
  - by rewrite app_nil_r.
  - rewrite Hbody, bind_pair, IH. simpl. by rewrite <- app_assoc.
Qed.

Lemma flat_map_singleton {X A} (f : X -> A) (xs : list X) :
  flat_map (fun x => [f x]) xs = map f xs.
Proof. induction xs as [|x xs IH]; simpl; congruence. Qed.

Lemma flat_map_flat_map {X Y A} (f : X -> list Y) (g : Y -> list A) (xs : list X) :
  flat_map g (flat_map f xs) = flat_map (fun x => flat_map g (f x)) xs.
Proof.
  induction xs as [|x xs IH]; simpl; [done|].
  by rewrite flat_map_app, IH.
Qed.

Lemma flat_map_map {X Y A} (f : X -> Y) (g : Y -> list A) (xs : list X) :
  flat_map g (map f xs) = flat_map (fun x => g (f x)) xs.
Proof. induction xs as [|x xs IH]; simpl; congruence. Qed.

Lemma filter_flat_map {X A} (p : A -> bool) (f : X -> list A) (xs : list X) :
  List.filter p (flat_map f xs) = flat_map (fun x => List.filter p (f x)) xs.
Proof.
  induction xs as [|x xs IH]; simpl; [done|].
  by rewrite List.filter_app, IH.
Qed.

End IoFacts.

(** ** The metric window aggregator *)

Section Aggregator.
Import Py Data Sys Shared Spec.

Lemma collect_points_spec (ps : list point) (vals : list float) :
  collect_points ps vals = vals ++ omap double_value ps.
Proof.
  revert vals. induction ps as [|p ps IH]; intros vals; simpl.
  - by rewrite app_nil_r.
  - destruct (double_value p) as [v|]; rewrite IH; [|done].
    by rewrite <- app_assoc.
Qed.

Lemma collect_series_spec (it : iter time_series) (vals : list float) :
  collect_series it vals =
  match iter_outcome it with
  | Returns series => Returns (vals ++ all_values series)
  | Raises => Raises
  end.
Proof.
  revert vals. induction it as [|s rest IH|]; intros vals; simpl.
  - by rewrite app_nil_r.
  - rewrite IH, collect_points_spec.
    destruct (iter_outcome rest) as [series|]; [|done].
    unfold all_values; simpl. by rewrite <- app_assoc.
  - done.
Qed.

Lemma cpu_avg_try_spec (w : world) (id : option string) (minutes : Z) :
  cpu_avg_try w id minutes =
  match list_time_series w id minutes with
  | Raises => Raises
  | Returns it =>
      match iter_outcome it with
      | Raises => Raises
      | Returns series =>
          match all_values series with
          | [] => Returns 0%float
          | vals => Returns (arithmetic_mean vals)
          end
      end
  end.
Proof.
  unfold cpu_avg_try.
  destruct (list_time_series w id minutes) as [it|]; [|done].
  rewrite collect_series_spec.
  destruct (iter_outcome it) as [series|]; [|done].
  simpl. by destruct (all_values series).
Qed.

Lemma get_cpu_avg_value (w : world) (id : option string) (minutes : Z) :
  (CostAnalyzer.get_cpu_avg w id minutes).1 =
  match cpu_avg_try w id minutes with Returns avg => avg | Raises => 0%float end.
Proof. reflexivity. Qed.

Lemma get_cpu_avg_trace (w : world) (id : option string) (minutes : Z) :
  (CostAnalyzer.get_cpu_avg w id minutes).2 = [ListTimeSeries id minutes].
Proof. reflexivity. Qed.

Lemma get_cpu_usage_value (w : world) (zone : string) (id : option string)
    (minutes : Z) :
  (IdleShutdown.get_cpu_usage w zone id minutes).1 =
  match cpu_avg_try w id minutes with Returns avg => avg | Raises => 0%float end.
Proof.
  unfold IdleShutdown.get_cpu_usage.
  by destruct (cpu_avg_try w id minutes).
Qed.

Lemma get_cpu_usage_queries (w : world) (zone : string) (id : option string)
    (minutes : Z) :
  List.filter is_metrics_query (IdleShutdown.get_cpu_usage w zone id minutes).2
  = [ListTimeSeries id minutes] /\
  List.filter is_stop_call (IdleShutdown.get_cpu_usage w zone id minutes).2 = [].
Proof.
  unfold IdleShutdown.get_cpu_usage.
  by destruct (cpu_avg_try w id minutes).
Qed.

Lemma sum_plain_eq (vals : list float) : Py.sum vals = plain_sum vals.
Proof.
  unfold Py.sum, plain_sum. rewrite <- (rev_involutive vals) at 1.
  induction (rev vals) as [|v earlier IH]; [done|].
  cbn [rev partial_sum]. rewrite fold_left_app. cbn [fold_left]. by rewrite IH.
Qed.

Lemma compensated_state_eq (first : float) (rest : list float) :
  fold_left compensate rest ((0 + first)%float, 0%float)
  = neumaier_state first (rev rest).
Proof.
  rewrite <- (rev_involutive rest) at 1.
  induction (rev rest) as [|x earlier IH]; [done|].
  cbn [rev neumaier_state]. rewrite fold_left_app. cbn [fold_left].
  rewrite IH. unfold compensate. cbv zeta.
  by destruct (abs x <=? abs (neumaier_state first earlier).1)%float.
Qed.

Lemma sum_compensated_eq (vals : list float) :
  sum_compensated vals = neumaier_sum vals.
Proof.
  destruct vals as [|first rest]; [done|].
  unfold sum_compensated, neumaier_sum, finite_nonzero. cbv zeta.
  rewrite compensated_state_eq.
  by destruct (Prim2SF (neumaier_state first (rev rest)).2).
Qed.

Lemma builtin_sum_eq (g : summation) (vals : list float) :
  builtin_sum g vals = float_sum g vals.
Proof. destruct g; [apply sum_plain_eq|apply sum_compensated_eq]. Qed.

Lemma cpu_avg_try_on_spec (g : summation) (w : world) (id : option string)
    (minutes : Z) :
  cpu_avg_try_on g w id minutes =
  match list_time_series w id minutes with
  | Raises => Raises
  | Returns it =>
      match iter_outcome it with
      | Raises => Raises
      | Returns series =>
          match all_values series with
          | [] => Returns 0%float
          | vals => Returns (float_mean g vals)
          end
      end
  end.
Proof.
  unfold cpu_avg_try_on.
  destruct (list_time_series w id minutes) as [it|]; [|done].
  rewrite collect_series_spec.
  destruct (iter_outcome it) as [series|]; [|done].
  cbn [app]. destruct (all_values series) as [|v vals]; [done|].
  unfold float_mean. by rewrite builtin_sum_eq.
Qed.

(** C4, as the code has it.  With the monitoring client constructed, a call
    of the aggregator of either source file returns and never raises, under
    either generation of the interpreter's [sum]; both files return the same
    value.  It is exactly 0.0 when the query raises, when the iteration over
    the series raises, and when no point carries a number; otherwise it is
    the float sum of the numeric values of all points of all series, in the
    order received, divided by their count.  On an interpreter whose [sum] is
    plain, the call is [get_cpu_avg] / [get_cpu_usage] as the runs use them. *)
Theorem metric_window_aggregator (g : summation) (w : world) (zone : string)
    (id : option string) (minutes : Z) :
  exists avg trace trace',
    CostAnalyzer.get_cpu_avg_call g (Returns tt) w id minutes
    = Returns (avg, trace) /\
    IdleShutdown.get_cpu_usage_call g (Returns tt) w zone id minutes
    = Returns (avg, trace') /\
    (list_time_series w id minutes = Raises -> avg = 0%float) /\
    (forall it, list_time_series w id minutes = Returns it ->
       iter_outcome it = Raises -> avg = 0%float) /\
    (forall it series, list_time_series w id minutes = Returns it ->
       iter_outcome it = Returns series ->
       all_values series = [] -> avg = 0%float) /\
    (forall it series, list_time_series w id minutes = Returns it ->
       iter_outcome it = Returns series ->
       all_values series <> [] ->
       avg = float_mean g (all_values series) /\
       avg = (float_sum g (all_values series)
              / count_as_float (length (all_values series)))%float) /\
    (g = Plain ->
       CostAnalyzer.get_cpu_avg w id minutes = (avg, trace) /\
       IdleShutdown.get_cpu_usage w zone id minutes = (avg, trace')).
Proof.
  exists (match cpu_avg_try_on g w id minutes with
          | Returns a => a
          | Raises => 0%float
          end),
         [ListTimeSeries id minutes],
         (ListTimeSeries id minutes
          :: match cpu_avg_try_on g w id minutes with
             | Returns _ => []
             | Raises => [Log LogMonitoringFailed]
             end).
  split; [reflexivity|]. split.
  { unfold IdleShutdown.get_cpu_usage_call.
    by destruct (cpu_avg_try_on g w id minutes). }
  split; [|split; [|split; [|split]]].
  - rewrite cpu_avg_try_on_spec. by intros ->.
  - rewrite cpu_avg_try_on_spec. by intros it -> ->.
  - rewrite cpu_avg_try_on_spec. by intros it series -> -> ->.
  - rewrite cpu_avg_try_on_spec. intros it series -> -> Hne.
    destruct (all_values series); [done|]. by split.
  - intros ->. split; [reflexivity|].
    unfold IdleShutdown.get_cpu_usage.
    change (cpu_avg_try_on Plain w id minutes) with (cpu_avg_try w id minutes).
    by destruct (cpu_avg_try w id minutes).
Qed.

(** Witness: the 12-hour answer for [vm-a] has three numeric points in two
    series, 0.01, 0.03 and 0.02; under either generation the call returns
    their float mean, 0.02. *)
Lemma metric_window_aggregator_witness :
  (exists trace,
     CostAnalyzer.get_cpu_avg_call Plain (Returns tt)
       (Examples.fleet Raises (PostRaises "")) (Some "101") 720
     = Returns (0.02%float, trace)) /\
  (exists trace,
     IdleShutdown.get_cpu_usage_call Compensated (Returns tt)
       (Examples.fleet Raises (PostRaises "")) "us-central1-a" (Some "101") 720
     = Returns (0.02%float, trace)).
Proof.
  split.
  - destruct (metric_window_aggregator Plain
                (Examples.fleet Raises (PostRaises "")) "us-central1-a"
                (Some "101") 720)
      as (avg & trace & trace' & Hcall & _ & _ & _ & _ & Hmean & _).
    exists trace. rewrite Hcall.
    destruct (Hmean _ [Examples.series [0.01; 0.03]%float;
                       Examples.series [0.02]%float] eq_refl eq_refl)
      as [-> _]; [discriminate|].
    vm_compute. reflexivity.
  - destruct (metric_window_aggregator Compensated
                (Examples.fleet Raises (PostRaises "")) "us-central1-a"
                (Some "101") 720)
      as (avg & trace & trace' & _ & Hcall & _ & _ & _ & Hmean & _).
    exists trace'. rewrite Hcall.
    destruct (Hmean _ [Examples.series [0.01; 0.03]%float;
                       Examples.series [0.02]%float] eq_refl eq_refl)
      as [-> _]; [discriminate|].
    vm_compute. reflexivity.
Defined.

(** C4 as stated fails twice.  The aggregator raises when the construction
    of its monitoring client raises, which happens before the [try].  And
    the value returned for the readings 0.1, 0.2 and 0.3 is not their
    arithmetic mean, nor the binary64 nearest to it (0.2): it is
    0.20000000000000004 where [sum] is plain and 0.19999999999999998 where it
    is compensated. *)
Lemma aggregator_raises_and_rounds :
  CostAnalyzer.get_cpu_avg_call Plain Raises Examples.tenths (Some "101") 720
  = Raises /\
  IdleShutdown.get_cpu_usage_call Plain Raises Examples.tenths "us-central1-a"
    (Some "101") 720 = Raises /\
  all_values [Examples.series [0.1; 0.2]%float; Examples.series [0.3]%float]
  = [0.1; 0.2; 0.3]%float /\
  nearest_mean [0.1; 0.2; 0.3]%float = Some 0.2%float /\
  option_map fst
    (match CostAnalyzer.get_cpu_avg_call Plain (Returns tt) Examples.tenths
             (Some "101") 720 with
     | Returns out => Some out
     | Raises => None
     end) = Some 0.20000000000000004%float /\
  option_map fst
    (match CostAnalyzer.get_cpu_avg_call Compensated (Returns tt)
             Examples.tenths (Some "101") 720 with
     | Returns out => Some out
     | Raises => None
     end) = Some 0.19999999999999998%float /\
  (CostAnalyzer.get_cpu_avg Examples.tenths (Some "101") 720).1
  = 0.20000000000000004%float /\
  0.20000000000000004%float <> 0.2%float /\
  0.19999999999999998%float <> 0.2%float.
Proof.
  repeat split; try (vm_compute; reflexivity).
  - intros H. apply (f_equal (fun x => (x =? 0.2)%float)) in H.
    vm_compute in H. discriminate.
  - intros H. apply (f_equal (fun x => (x =? 0.2)%float)) in H.
    vm_compute in H. discriminate.
Qed.

End Aggregator.

(** ** The reporting path as a fold over the fleet walk *)

Section Reporting.
Import Py Data Sys Shared Spec CostAnalyzer.

Lemma for_each_fst {S X} (body : S -> X -> io S) (xs : list X) (s : S) :
  (for_each xs body s).1 = fold_left (fun s x => (body s x).1) xs s.
Proof.
  revert s. induction xs as [|x xs IH]; intros s; simpl; [done|].
  by rewrite IH.
Qed.

Lemma process_vm_fst (cfg : config) (w : world) (zone : string) (st : acc)
    (v : vm) :
  (process_vm cfg w (billing_map_of w) zone st v).1 =
  {| instances_report :=
       instances_report st ++ [record_of (cpu_threshold cfg) w (zone, v)];
     total_cost := (total_cost st + vm_cost (billing_map_of w) v)%float |}.
Proof. reflexivity. Qed.

Lemma vm_loop_fst (cfg : config) (w : world) (zone : string) (items : list vm)
    (st : acc) :
  (for_each items (process_vm cfg w (billing_map_of w) zone) st).1 =
  {| instances_report :=
       instances_report st ++
       map (record_of (cpu_threshold cfg) w) (map (pair zone) items);
     total_cost :=
       fold_left PrimFloat.add (map (vm_cost (billing_map_of w)) items)
                 (total_cost st) |}.
Proof.
  rewrite for_each_fst. revert st.
  induction items as [|v items IH]; intros st.
  - destruct st; simpl. by rewrite app_nil_r.
  - cbn [fold_left map]. rewrite process_vm_fst, IH.
    cbn [instances_report total_cost]. by rewrite <- app_assoc.
Qed.

Lemma process_zone_fst (cfg : config) (w : world) (st : acc) (zone : string) :
  (process_zone cfg w (billing_map_of w) st zone).1 =
  {| instances_report :=
       instances_report st ++
       map (record_of (cpu_threshold cfg) w) (map (pair zone) (zone_items w zone));
     total_cost :=
       fold_left PrimFloat.add
                 (map (vm_cost (billing_map_of w)) (zone_items w zone))
                 (total_cost st) |}.
Proof.
  unfold process_zone, zone_items. rewrite emit_bind; simpl.
  destruct (instances_list w zone) as [[items|]|]; simpl.
  - apply vm_loop_fst.
  - destruct st; simpl. by rewrite app_nil_r.
  - destruct st; simpl. by rewrite app_nil_r.
Qed.

Lemma zone_loop_fst (cfg : config) (w : world) (zones : list string) (st : acc) :
  let walk := flat_map (fun zone => map (pair zone) (zone_items w zone)) zones in
  (for_each zones (process_zone cfg w (billing_map_of w)) st).1 =
  {| instances_report :=
       instances_report st ++ map (record_of (cpu_threshold cfg) w) walk;
     total_cost :=
       fold_left PrimFloat.add
                 (map (fun zv => vm_cost (billing_map_of w) zv.2) walk)
                 (total_cost st) |}.
Proof.
  cbv zeta. rewrite for_each_fst. revert st.
  induction zones as [|zone zones IH]; intros st.
  - destruct st; simpl. by rewrite app_nil_r.
  - cbn [fold_left flat_map]. rewrite process_zone_fst, IH.
    cbn [instances_report total_cost].
    rewrite !map_app, fold_left_app, <- app_assoc.
    by rewrite !map_map.
Qed.

(** The response of the reporting path, in closed form. *)
Lemma main_response (cfg : config) (w : world) :
  (main cfg w).1 =
  {| body :=
       {| rp_project := project cfg;
          rp_total_cost_24h :=
            Py.round (running_total (map (fun zv => vm_cost (billing_map_of w) zv.2)
                                (fleet_walk w))) 4;
          rp_instances := map (record_of (cpu_threshold cfg) w) (fleet_walk w);
          rp_dry_run := dry_run cfg |};
     status_code := 200;
     headers := [("Content-Type", "application/json")] |}.
Proof.
  unfold main. rewrite !bind_fst.
  change (list_zones w).1 with (zones_of w).
  change (query_billing w).1 with (billing_map_of w).
  pose proof (zone_loop_fst cfg w (zones_of w)
                {| instances_report := []; total_cost := 0 |}) as H.
  cbv zeta in H. rewrite H. reflexivity.
Qed.

End Reporting.

(** ** The shutdown path as a fold over the fleet walk *)

Section Shutdown.
Import Py Data Sys Shared Spec IdleShutdown.

Lemma opted_in_test (v : vm) :
  bool_decide (default ∅ (vm_labels v) !! "auto-shutdown" ≠ Some "true")
  = negb (bool_decide (opted_in v)).
Proof. unfold opted_in. apply bool_decide_not. Qed.

(** Both source files read the same 12-hour figure. *)
Lemma get_cpu_usage_reading (w : world) (zone : string) (v : vm) :
  (get_cpu_usage w zone (vm_id v) (60 * 12)).1 = reading_12h w v.
Proof. by rewrite get_cpu_usage_value. Qed.

Lemma process_vm_spec (cfg : config) (w : world) (zone : string)
    (actions : list action) (v : vm) :
  process_vm cfg w zone actions v =
  (actions ++ [decide_action (cpu_threshold cfg) (dry_run cfg) w (zone, v)],
   vm_calls cfg w (zone, v)).
Proof.
  unfold vm_calls, decide_action, process_vm; cbn [fst snd].
  rewrite opted_in_test.
  destruct (bool_decide (opted_in v)); cbn [negb]; [|done].
  rewrite !bind_pair_eta.
  rewrite get_cpu_usage_reading. fold (cpu_pct_12h w v).
  destruct (cpu_pct_12h w v <? cpu_threshold cfg)%float; [|done].
  destruct (dry_run cfg); [done|].
  by destruct (instances_stop w zone (vm_name v)).
Qed.

Lemma process_zone_spec (cfg : config) (w : world) (actions : list action)
    (zone : string) :
  process_zone cfg w actions zone =
  (actions ++ map (decide_action (cpu_threshold cfg) (dry_run cfg) w)
                  (map (pair zone) (zone_items w zone)),
   zone_calls cfg w zone).
Proof.
  unfold zone_calls, process_zone, zone_items.
  rewrite !emit_bind.
  destruct (instances_list w zone) as [[items|]|]; cbn [fst snd map].
  - rewrite !(for_each_extend
               (fun v => [decide_action (cpu_threshold cfg) (dry_run cfg) w (zone, v)])
               (fun v => vm_calls cfg w (zone, v)))
      by (intros; apply process_vm_spec).
    cbn [fst snd]. by rewrite flat_map_singleton, map_map.
  - by rewrite app_nil_r.
  - by rewrite app_nil_r.
Qed.

Lemma zone_calls_filter (p : event -> bool) (cfg : config) (w : world)
    (zone : string) :
  (forall z, p (InstancesList z) = false) ->
  (forall l, p (Log l) = false) ->
  List.filter p (zone_calls cfg w zone) =
  flat_map (fun zv => List.filter p (vm_calls cfg w zv))
           (map (pair zone) (zone_items w zone)).
Proof.
  intros Hlist Hlog. unfold zone_calls, process_zone, zone_items.
  rewrite emit_bind. cbn [snd List.filter]. rewrite Hlist.
  destruct (instances_list w zone) as [[items|]|]; cbn [fst snd map].
  - rewrite (for_each_extend
               (fun v => [decide_action (cpu_threshold cfg) (dry_run cfg) w (zone, v)])
               (fun v => vm_calls cfg w (zone, v)))
      by (intros; apply process_vm_spec).
    cbn [snd]. by rewrite filter_flat_map, flat_map_map.
  - done.
  - simpl. by rewrite Hlog.
Qed.

(** The shutdown run in closed form: one decided action per walked VM. *)
Lemma main_spec (cfg : config) (w : world) :
  main cfg w =
  ({| body := map (decide_action (cpu_threshold cfg) (dry_run cfg) w)
                  (fleet_walk w);
      status_code := 200;
      headers := [("Content-Type", "application/json")] |},
   ZonesList :: flat_map (zone_calls cfg w) (zones_of w)).
Proof.
  unfold main.
  change (list_zones w) with (zones_of w, [ZonesList]).
  rewrite bind_pair.
  rewrite (for_each_extend
             (fun zone => map (decide_action (cpu_threshold cfg) (dry_run cfg) w)
                              (map (pair zone) (zone_items w zone)))
             (zone_calls cfg w))
    by (intros; apply process_zone_spec).
  rewrite bind_pair. cbn [fst snd ret app]. rewrite app_nil_r.
  unfold fleet_walk. do 2 f_equal.
  induction (zones_of w) as [|zone zones IH]; cbn [flat_map map]; [done|].
  by rewrite map_app, IH.
Qed.

Lemma main_calls_filter (p : event -> bool) (cfg : config) (w : world) :
  p ZonesList = false ->
  (forall z, p (InstancesList z) = false) ->
  (forall l, p (Log l) = false) ->
  List.filter p (main cfg w).2 =
  flat_map (fun zv => List.filter p (vm_calls cfg w zv)) (fleet_walk w).
Proof.
  intros Hzones Hlist Hlog. rewrite main_spec. cbn [snd List.filter].
  rewrite Hzones, filter_flat_map. unfold fleet_walk.
  rewrite flat_map_flat_map. apply flat_map_ext. intros zone.
  by apply zone_calls_filter.
Qed.

Lemma vm_calls_metrics (cfg : config) (w : world) (zv : string * vm) :
  List.filter is_metrics_query (vm_calls cfg w zv) =
  if bool_decide (opted_in zv.2) then [ListTimeSeries (vm_id zv.2) 720] else [].
Proof.
  unfold vm_calls, process_vm. rewrite opted_in_test.
  destruct (bool_decide (opted_in zv.2)); cbn [negb]; [|done].
  rewrite bind_snd, List.filter_app.
  destruct (get_cpu_usage_queries w zv.1 (vm_id zv.2) (60 * 12)) as [-> _].
  destruct (_ <? _)%float; [|done].
  destruct (dry_run cfg); [done|].
  by destruct (instances_stop w zv.1 (vm_name zv.2)).
Qed.

Lemma vm_calls_stop (cfg : config) (w : world) (zv : string * vm) :
  List.filter is_stop_call (vm_calls cfg w zv) =
  if stop_candidate (cpu_threshold cfg) w zv && negb (dry_run cfg)
  then [InstancesStop zv.1 (vm_name zv.2)] else [].
Proof.
  unfold vm_calls, process_vm, stop_candidate. rewrite opted_in_test.
  destruct (bool_decide (opted_in zv.2)); cbn [negb andb]; [|done].
  rewrite bind_snd, List.filter_app.
  destruct (get_cpu_usage_queries w zv.1 (vm_id zv.2) (60 * 12)) as [_ ->].
  rewrite get_cpu_usage_reading. fold (cpu_pct_12h w zv.2).
  destruct (cpu_pct_12h w zv.2 <? cpu_threshold cfg)%float; cbn [andb]; [|done].
  destruct (dry_run cfg); [done|].
  by destruct (instances_stop w zv.1 (vm_name zv.2)).
Qed.

Lemma flat_map_if {X A} (p : X -> bool) (f : X -> A) (xs : list X) :
  flat_map (fun x => if p x then [f x] else []) xs = map f (List.filter p xs).
Proof.
  induction xs as [|x xs IH]; simpl; [done|].
  destruct (p x); simpl; congruence.
Qed.

End Shutdown.

(** ** Floats *)

Section FloatFacts.
Import Spec.

(** Equal floats are not ordered strictly. *)
Lemma feq_not_flt (x y : float) : feq x y -> ~ flt x y.
Proof.
  unfold feq, flt. rewrite FloatAxioms.eqb_spec, FloatAxioms.ltb_spec.
  unfold SFeqb, SFltb.
  destruct (SFcompare (Prim2SF x) (Prim2SF y)) as [[]|]; congruence.
Qed.

End FloatFacts.

(** ** The cost resolver *)

Section Costs.
Import Py Data Sys Shared Spec CostAnalyzer.

Lemma lookup_map {A B} (f : A -> B) (l : list A) (i : nat) :
  map f l !! i = f <$> (l !! i).
Proof.
  revert i. induction l as [|x l IH]; intros [|i]; simpl; auto.
Qed.

Lemma mapping_rates_nonneg :
  map_Forall (fun _ rate => fle 0 (rate * 24)) mapping.
Proof.
  unfold mapping, fle.
  repeat (apply map_Forall_insert_2; [vm_compute; reflexivity|]).
  apply map_Forall_empty.
Qed.

Lemma estimate_nonneg (machine_type : string) :
  fle 0 (estimate_cost_by_machine machine_type * 24).
Proof.
  unfold estimate_cost_by_machine.
  destruct (mapping !! machine_type) as [rate|] eqn:E; simpl.
  - exact (mapping_rates_nonneg _ _ E).
  - vm_compute; reflexivity.
Qed.

(** The dictionary built from rows without a negative cost has no negative
    value. *)
Lemma billing_dict_nonneg (rows : list row) (d d' : gmap string float) :
  Forall (fun r => forall c, row_cost_24h r = Some c -> fle 0 c) rows ->
  map_Forall (fun _ c => fle 0 c) d ->
  billing_dict rows d = Returns d' ->
  map_Forall (fun _ c => fle 0 c) d'.
Proof.
  intros Hrows. revert d. induction Hrows as [|r rows Hr _ IH]; intros d Hd; simpl.
  - by intros [= <-].
  - destruct (row_instance_name r) as [n|]; [|by apply IH].
    destruct (truthy n); [|by apply IH].
    destruct (row_cost_24h r) as [c|]; [|done].
    apply IH. apply map_Forall_insert_2; auto.
Qed.

Lemma billing_map_nonneg (w : world) :
  (forall rows, billing_rows w = Returns rows ->
     Forall (fun r => forall c, row_cost_24h r = Some c -> fle 0 c) rows) ->
  map_Forall (fun _ c => fle 0 c) (billing_map_of w).
Proof.
  intros Hrows. unfold billing_map_of, query_billing. cbn [fst bind emit ret snd].
  destruct (billing_rows w) as [rows|]; [|apply map_Forall_empty].
  destruct (billing_dict rows ∅) as [d|] eqn:E; [|apply map_Forall_empty].
  eapply billing_dict_nonneg; [by apply Hrows| |exact E].
  apply map_Forall_empty.
Qed.

(** C3. Cost resolution returns the billed value whenever the billing map
    has the instance name, whatever the machine type; otherwise it returns the
    hourly rate of the machine type times 24, the rate being the seven-entry
    table with 0.05 for every other string.  For [e2-medium] absent from
    billing this is [0.0332 * 24], the float [0.7968]. *)
Theorem cost_resolution (name machine_type : string)
    (billing_map : gmap string float) :
  (forall cost machine_type',
     billing_map !! name = Some cost ->
     resolve_cost name machine_type billing_map = cost /\
     resolve_cost name machine_type' billing_map = cost) /\
  (billing_map !! name = None ->
     resolve_cost name machine_type billing_map
     = (estimate_cost_by_machine machine_type * 24)%float) /\
  (machine_type ∉ ["e2-micro"; "e2-small"; "e2-medium"; "n1-standard-1";
                   "n1-standard-2"; "e2-standard-4"; "e2-standard-2"] ->
     estimate_cost_by_machine machine_type = 0.05%float) /\
  (estimate_cost_by_machine "e2-micro" = 0.0076%float /\
   estimate_cost_by_machine "e2-small" = 0.0166%float /\
   estimate_cost_by_machine "e2-medium" = 0.0332%float /\
   estimate_cost_by_machine "n1-standard-1" = 0.0475%float /\
   estimate_cost_by_machine "n1-standard-2" = 0.0950%float /\
   estimate_cost_by_machine "e2-standard-4" = 0.05%float /\
   estimate_cost_by_machine "e2-standard-2" = 0.03%float) /\
  (billing_map !! name = None ->
     resolve_cost name "e2-medium" billing_map = (0.0332 * 24)%float /\
     (0.0332 * 24)%float = 0.7968%float).
Proof.
  unfold resolve_cost. split; [|split; [|split; [|split]]].
  - intros cost machine_type' Hbilled. by rewrite Hbilled.
  - by intros ->.
  - intros Hnot. repeat (apply not_elem_of_cons in Hnot as [? Hnot]).
    unfold estimate_cost_by_machine, mapping.
    rewrite !lookup_insert_ne by done. by rewrite lookup_empty.
  - repeat split.
  - intros ->. by split.
Qed.

(** Witness: [vm-c] is not billed and its machine type is in the table;
    [vm-a] is billed. *)
Lemma cost_resolution_witness :
  resolve_cost "vm-a" "anything" (billing_map_of (Examples.fleet Raises (PostRaises "")))
  = 1.00004%float /\
  resolve_cost "vm-c" "e2-medium" (billing_map_of (Examples.fleet Raises (PostRaises "")))
  = 0.7968%float.
Proof.
  pose proof (cost_resolution "vm-a" "anything"
                (billing_map_of (Examples.fleet Raises (PostRaises "")))) as Ha.
  pose proof (cost_resolution "vm-c" "e2-medium"
                (billing_map_of (Examples.fleet Raises (PostRaises "")))) as Hc.
  split.
  - apply (proj1 Ha 1.00004%float "anything"). vm_compute. reflexivity.
  - destruct Hc as (_ & _ & _ & _ & Hc). destruct Hc as [-> ->]; [|reflexivity].
    vm_compute. reflexivity.
Defined.

(** C7, as the code has it.  The resolved cost is non-negative when the
    instance is absent from the billing map (every estimate is) and when the
    billing rows carry no negative cost; a billed value is returned as it is. *)
Theorem resolved_cost_nonneg (w : world) (name machine_type : string) :
  (billing_map_of w !! name = None ->
     fle 0 (resolve_cost name machine_type (billing_map_of w))) /\
  ((forall rows, billing_rows w = Returns rows ->
      Forall (fun r => forall c, row_cost_24h r = Some c -> fle 0 c) rows) ->
     fle 0 (resolve_cost name machine_type (billing_map_of w))).
Proof.
  split.
  - intros Hnone. unfold resolve_cost. rewrite Hnone. apply estimate_nonneg.
  - intros Hrows. unfold resolve_cost.
    destruct (billing_map_of w !! name) as [c|] eqn:E.
    + exact (billing_map_nonneg w Hrows _ _ E).
    + apply estimate_nonneg.
Qed.

(** Witness: in the example fleet [vm-c] is not billed, and no billing row
    is negative. *)
Lemma resolved_cost_nonneg_witness :
  fle 0 (resolve_cost "vm-c" "n1-standard-1"
           (billing_map_of (Examples.fleet Raises (PostRaises "")))) /\
  fle 0 (resolve_cost "vm-a" "e2-medium"
           (billing_map_of (Examples.fleet Raises (PostRaises "")))).
Proof.
  split.
  - apply (proj1 (resolved_cost_nonneg (Examples.fleet Raises (PostRaises ""))
                    "vm-c" "n1-standard-1")).
    vm_compute. reflexivity.
  - apply (proj2 (resolved_cost_nonneg (Examples.fleet Raises (PostRaises ""))
                    "vm-a" "e2-medium")).
    intros rows [= <-].
    repeat constructor; intros c [= <-]; vm_compute; reflexivity.
Defined.

(** C7 as stated fails: a negative billed cost is resolved to itself. *)
Lemma resolved_cost_negative :
  resolve_cost "vm-a" "e2-medium" (billing_map_of Examples.fleet_refund)
  = (-1.5)%float /\
  ~ fle 0 (resolve_cost "vm-a" "e2-medium" (billing_map_of Examples.fleet_refund)).
Proof.
  split; [vm_compute; reflexivity|].
  unfold fle. vm_compute. discriminate.
Qed.

End Costs.

(** ** The reporting path: classification, totals, order, notification *)

Section ReportingClaims.
Import Py Data Sys Shared Spec CostAnalyzer.

Lemma report_instances (cfg : config) (w : world) :
  rp_instances (body (main cfg w).1)
  = map (record_of (cpu_threshold cfg) w) (fleet_walk w).
Proof. by rewrite main_response. Qed.

Lemma report_total (cfg : config) (w : world) :
  rp_total_cost_24h (body (main cfg w).1)
  = Py.round (running_total (map (fun zv => vm_cost (billing_map_of w) zv.2)
                          (fleet_walk w))) 4.
Proof. by rewrite main_response. Qed.

(** C2, as the code has it.  The reported total is the left-to-right float
    sum of the full-precision costs of exactly the listed instances, rounded
    to four decimals once, after the summation; each listed [cost_24h] is the
    same full-precision cost rounded on its own. *)
Theorem total_is_rounded_sum_of_costs (cfg : config) (w : world) :
  let r := body (main cfg w).1 in
  let costs := map (fun zv => vm_cost (billing_map_of w) zv.2) (fleet_walk w) in
  rp_total_cost_24h r = Py.round (running_total costs) 4 /\
  map ie_cost_24h (rp_instances r) = map (fun c => Py.round c 4) costs /\
  length (rp_instances r) = length costs.
Proof.
  cbv zeta. rewrite report_total, report_instances.
  split; [done|]. rewrite !map_map, !length_map. done.
Qed.

(** C2 as stated fails: with billed costs 1.00004 and 2.00004 and an
    estimate of 1.14, the listed values add up to 4.14 and the total is
    4.1401. *)
Lemma total_differs_from_listed_sum :
  let r := body (main Examples.report_cfg
                      (Examples.fleet (Returns tt) (PostResponse 202 ""))).1 in
  map ie_cost_24h (rp_instances r) = [1; 2; 1.14]%float /\
  running_total (map ie_cost_24h (rp_instances r)) = 4.14%float /\
  rp_total_cost_24h r = 4.1401%float /\
  ~ feq (rp_total_cost_24h r) (running_total (map ie_cost_24h (rp_instances r))).
Proof.
  cbv zeta. repeat split; try (vm_compute; reflexivity).
  unfold feq. vm_compute. discriminate.
Qed.

Lemma fleet_walk_ext (w1 w2 : world) :
  zones_list w1 = zones_list w2 ->
  (forall zone, instances_list w1 zone = instances_list w2 zone) ->
  fleet_walk w1 = fleet_walk w2.
Proof.
  intros Hz Hi. unfold fleet_walk, zones_of, zone_items. rewrite Hz.
  apply flat_map_ext. intros zone. by rewrite Hi.
Qed.

(** C8. Two runs over the same inventory, billing rows and threshold whose
    monitoring answers agree on the 12-hour window give every instance the
    same state, whatever the 1-hour answers are; the 1-hour answers reach
    only the [cpu_avg_1h_pct] field, and the total is the same. *)
Theorem state_independent_of_1h (cfg : config) (w1 w2 : world) :
  zones_list w1 = zones_list w2 ->
  (forall zone, instances_list w1 zone = instances_list w2 zone) ->
  billing_rows w1 = billing_rows w2 ->
  (forall id, list_time_series w1 id 720 = list_time_series w2 id 720) ->
  let r1 := body (main cfg w1).1 in
  let r2 := body (main cfg w2).1 in
  map ie_state (rp_instances r1) = map ie_state (rp_instances r2) /\
  map without_1h (rp_instances r1) = map without_1h (rp_instances r2) /\
  rp_total_cost_24h r1 = rp_total_cost_24h r2.
Proof.
  intros Hz Hi Hb Hm. cbv zeta.
  rewrite !report_total, !report_instances.
  rewrite (fleet_walk_ext w1 w2 Hz Hi).
  assert (billing_map_of w1 = billing_map_of w2) as Hbm.
  { unfold billing_map_of, query_billing; cbn [fst bind emit ret]. by rewrite Hb. }
  assert (forall v, reading_12h w1 v = reading_12h w2 v) as H12.
  { intros v. unfold reading_12h. rewrite !get_cpu_avg_value.
    unfold cpu_avg_try. change (60 * 12)%Z with 720%Z. by rewrite Hm. }
  rewrite !map_map, Hbm. repeat split.
  - apply map_ext. intros zv. unfold record_of, classify; cbn [ie_state].
    by rewrite H12.
  - apply map_ext. intros zv. unfold record_of, classify, without_1h.
    cbn [ie_name ie_zone ie_status ie_labels ie_machine_type
         ie_cpu_avg_12h_pct ie_cost_24h ie_state].
    by rewrite H12, Hbm.
Qed.

(** Witness: the example fleet and the same fleet with 90% as every 1-hour
    reading. *)
Lemma state_independent_of_1h_witness :
  let r1 := body (main Examples.report_cfg
                       (Examples.fleet (Returns tt) (PostRaises "timeout"))).1 in
  let r2 := body (main Examples.report_cfg Examples.fleet_other_1h).1 in
  map ie_state (rp_instances r1) = map ie_state (rp_instances r2) /\
  map without_1h (rp_instances r1) = map without_1h (rp_instances r2) /\
  rp_total_cost_24h r1 = rp_total_cost_24h r2.
Proof.
  apply (state_independent_of_1h Examples.report_cfg
           (Examples.fleet (Returns tt) (PostRaises "timeout"))
           Examples.fleet_other_1h).
  - reflexivity.
  - reflexivity.
  - reflexivity.
  - reflexivity.
Defined.

(** Whatever happens, the notification attempt makes no call and writes no
    line other than its POST and its log lines. *)
Lemma send_only_send_events (w : world) (key admin from : string) (r : report) :
  List.filter (fun e => negb (is_send_event e))
              (send_report_via_sendgrid w key admin from r).2 = [].
Proof.
  unfold send_report_via_sendgrid.
  destruct (negb (truthy key) || negb (truthy admin) || negb (truthy from));
    [reflexivity|].
  rewrite emit_bind. cbn [snd List.filter is_send_event negb].
  destruct (requests_post w _) as [status text|msg]; [|reflexivity].
  rewrite emit_bind. cbn [snd List.filter is_send_event negb].
  by destruct (bool_decide _).
Qed.

(** C10. The response of the reporting path (the report, status 200 and the
    content type) is the same under any notification settings and any
    behaviour of SendGrid; so is every remote call other than the POST and
    the log lines. *)
Theorem response_independent_of_email (cfg : config) (w : world)
    (key admin from : string) (post : mail -> post_outcome) :
  let out := main cfg w in
  let out' := main (with_email cfg key admin from) (with_post w post) in
  out'.1 = out.1 /\
  status_code out.1 = 200%Z /\
  headers out.1 = [("Content-Type", "application/json")] /\
  List.filter (fun e => negb (is_send_event e)) out'.2
  = List.filter (fun e => negb (is_send_event e)) out.2.
Proof.
  cbv zeta. split; [|split; [|split]].
  - reflexivity.
  - reflexivity.
  - reflexivity.
  - unfold main. rewrite !bind_snd, !List.filter_app.
    rewrite !send_only_send_events. reflexivity.
Qed.

End ReportingClaims.

(** ** The shutdown path: skipping, stopping, and the calls made *)

Section ShutdownClaims.
Import Py Data Sys Shared Spec IdleShutdown.

Lemma shutdown_actions (cfg : config) (w : world) :
  body (main cfg w).1
  = map (decide_action (cpu_threshold cfg) (dry_run cfg) w) (fleet_walk w).
Proof. by rewrite main_spec. Qed.

Lemma shutdown_action_at (cfg : config) (w : world) (i : nat)
    (zv : string * vm) :
  fleet_walk w !! i = Some zv ->
  body (main cfg w).1 !! i
  = Some (decide_action (cpu_threshold cfg) (dry_run cfg) w zv).
Proof. intros Hi. by rewrite shutdown_actions, lookup_map, Hi. Qed.

(** C5. An instance whose labels do not map [auto-shutdown] to ["true"] is
    skipped by the loop body without any remote call; in a whole run its
    action line is the Skip line, and the monitoring queries made are exactly
    one 12-hour query per opted-in instance, in walk order. *)
Theorem skip_without_label (cfg : config) (w : world) :
  (forall zone actions v, ~ opted_in v ->
     process_vm cfg w zone actions v = (actions ++ [Skipping (vm_name v)], [])) /\
  (forall i zone v, fleet_walk w !! i = Some (zone, v) -> ~ opted_in v ->
     body (main cfg w).1 !! i = Some (Skipping (vm_name v)) /\
     List.filter is_metrics_query (vm_calls cfg w (zone, v)) = []) /\
  List.filter is_metrics_query (main cfg w).2
  = map (fun zv => ListTimeSeries (vm_id zv.2) 720)
        (List.filter (fun zv => bool_decide (opted_in zv.2)) (fleet_walk w)).
Proof.
  split; [|split].
  - intros zone actions v Hno. unfold process_vm.
    rewrite opted_in_test, (bool_decide_eq_false_2 _ Hno). reflexivity.
  - intros i zone v Hi Hno. split.
    + rewrite (shutdown_action_at cfg w i (zone, v) Hi).
      unfold decide_action; cbn [fst snd].
      by rewrite (bool_decide_eq_false_2 _ Hno).
    + rewrite vm_calls_metrics; cbn [snd].
      by rewrite (bool_decide_eq_false_2 _ Hno).
  - rewrite main_calls_filter by done.
    rewrite <- flat_map_if. apply flat_map_ext. intros zv.
    apply vm_calls_metrics.
Qed.

(** Witness: [vm-b] carries no labels at all. *)
Lemma skip_without_label_witness :
  body (main (Examples.shutdown_cfg false)
             (Examples.fleet (Returns tt) (PostRaises ""))).1 !! 1
  = Some (Skipping "vm-b") /\
  List.filter is_metrics_query
    (vm_calls (Examples.shutdown_cfg false)
              (Examples.fleet (Returns tt) (PostRaises ""))
              ("us-central1-a", Examples.vm_b)) = [].
Proof.
  apply (proj1 (proj2 (skip_without_label
                         (Examples.shutdown_cfg false)
                         (Examples.fleet (Returns tt) (PostRaises ""))))
               1 "us-central1-a" Examples.vm_b).
  - reflexivity.
  - unfold opted_in. vm_compute. discriminate.
Defined.

(** C6. For an opted-in instance whose 12-hour percentage is below the
    threshold: in dry-run mode the action is the dry-run line and no stop
    call is made for it; otherwise exactly one stop call is made for it, the
    action is Stopped when the call returns and Error when it raises.  Over
    a whole run no stop call is made in dry-run mode, otherwise exactly one
    per such instance in walk order, and every walked instance has its
    action line whatever the stop calls did. *)
Theorem stop_decision (cfg : config) (w : world) :
  (forall i zone v,
     fleet_walk w !! i = Some (zone, v) -> opted_in v ->
     flt (cpu_pct_12h w v) (cpu_threshold cfg) ->
     (dry_run cfg = true ->
        body (main cfg w).1 !! i
        = Some (DryRunWouldStop (vm_name v) (cpu_pct_12h w v)) /\
        List.filter is_stop_call (vm_calls cfg w (zone, v)) = []) /\
     (dry_run cfg = false ->
        List.filter is_stop_call (vm_calls cfg w (zone, v))
        = [InstancesStop zone (vm_name v)] /\
        (forall u, instances_stop w zone (vm_name v) = Returns u ->
           body (main cfg w).1 !! i
           = Some (Stopped (vm_name v) (cpu_pct_12h w v))) /\
        (instances_stop w zone (vm_name v) = Raises ->
           body (main cfg w).1 !! i = Some (ErrorStopping (vm_name v))))) /\
  List.filter is_stop_call (main cfg w).2
  = (if dry_run cfg then []
     else map (fun zv => InstancesStop zv.1 (vm_name zv.2))
              (List.filter (stop_candidate (cpu_threshold cfg) w) (fleet_walk w))) /\
  (forall j zv, fleet_walk w !! j = Some zv ->
     exists a, body (main cfg w).1 !! j = Some a /\ action_name a = vm_name zv.2).
Proof.
  split; [|split].
  - intros i zone v Hi Hin Hidle.
    rewrite (shutdown_action_at cfg w i (zone, v) Hi), vm_calls_stop.
    unfold decide_action, stop_candidate; cbn [fst snd].
    rewrite (bool_decide_eq_true_2 _ Hin), Hidle. cbn [andb].
    split; intros ->; cbn [negb].
    + done.
    + split; [done|]. split; [by intros u ->|by intros ->].
  - rewrite main_calls_filter by done.
    destruct (dry_run cfg) eqn:Hdry.
    + induction (fleet_walk w) as [|zv walk IH]; [done|].
      cbn [flat_map]. rewrite IH, vm_calls_stop, Hdry.
      by rewrite andb_false_r.
    + rewrite <- flat_map_if. apply flat_map_ext. intros zv.
      rewrite vm_calls_stop, Hdry. by rewrite andb_true_r.
  - intros j zv Hj. eexists. split; [by apply shutdown_action_at|].
    unfold decide_action.
    repeat match goal with
           | |- context [if ?b then _ else _] => destruct b
           | |- context [match ?x with Returns _ => _ | Raises => _ end] => destruct x
           end; reflexivity.
Qed.

(** Witness: [vm-a] is opted in and at 2%; the run is not a dry run and the
    stop call fails. *)
Lemma stop_decision_witness :
  List.filter is_stop_call
    (vm_calls (Examples.shutdown_cfg false)
              (Examples.fleet Raises (PostRaises ""))
              ("us-central1-a", Examples.vm_a))
  = [InstancesStop "us-central1-a" "vm-a"] /\
  body (main (Examples.shutdown_cfg false)
             (Examples.fleet Raises (PostRaises ""))).1 !! 0
  = Some (ErrorStopping "vm-a").
Proof.
  destruct (proj2 (proj1 (stop_decision (Examples.shutdown_cfg false)
                            (Examples.fleet Raises (PostRaises "")))
                         0 "us-central1-a" Examples.vm_a
                         eq_refl eq_refl eq_refl) eq_refl)
    as (Hcalls & _ & Herr).
  split; [exact Hcalls|]. apply Herr. reflexivity.
Defined.

End ShutdownClaims.

(** ** Both paths: the threshold test and the order of the output *)

Section BothPaths.
Import Py Data Sys Shared Spec.

(** C1. For a run with threshold [t], the instance walked at position [i]
    with 12-hour reading [r] is classified Idle exactly when [r * 100 < t]
    and Active otherwise, so also when [r * 100 == t].  In the reporting path
    this is the [state] of its entry; in the shutdown path, for an opted-in
    instance, it is the kind of its action line. *)
Theorem classifier_threshold (t : float) (w : world) (i : nat)
    (zone : string) (v : vm) :
  fleet_walk w !! i = Some (zone, v) ->
  let r := reading_12h w v in
  r = (CostAnalyzer.get_cpu_avg w (vm_id v) (60 * 12)).1 /\
  r = (IdleShutdown.get_cpu_usage w zone (vm_id v) (60 * 12)).1 /\
  (forall cfg, CostAnalyzer.cpu_threshold cfg = t ->
     exists e,
       rp_instances (body (CostAnalyzer.main cfg w).1) !! i = Some e /\
       ie_name e = vm_name v /\
       (ie_state e = Idle <-> flt (r * 100) t) /\
       (ie_state e = Active <-> ~ flt (r * 100) t) /\
       (feq (r * 100) t -> ie_state e = Active)) /\
  (forall cfg, IdleShutdown.cpu_threshold cfg = t -> opted_in v ->
     exists a,
       body (IdleShutdown.main cfg w).1 !! i = Some a /\
       action_name a = vm_name v /\
       (action_state a = Some Idle <-> flt (r * 100) t) /\
       (action_state a = Some Active <-> ~ flt (r * 100) t) /\
       (feq (r * 100) t -> action_state a = Some Active)).
Proof.
  intros Hi r. split; [reflexivity|].
  split; [by rewrite get_cpu_usage_reading|]. split.
  - intros cfg <-. eexists. split.
    { rewrite report_instances, lookup_map, Hi. reflexivity. }
    unfold record_of, classify; cbn [ie_name ie_state fst snd].
    fold r. split; [reflexivity|].
    pose proof (feq_not_flt (r * 100) (CostAnalyzer.cpu_threshold cfg)) as Heq.
    unfold flt in *.
    destruct (r * 100 <? CostAnalyzer.cpu_threshold cfg)%float;
      repeat split; try congruence; try done.
    intros H; by elim (Heq H).
  - intros cfg <- Hin. eexists. split.
    { by apply shutdown_action_at. }
    unfold decide_action, cpu_pct_12h; cbn [fst snd].
    rewrite (bool_decide_eq_true_2 _ Hin). fold r.
    pose proof (feq_not_flt (r * 100) (IdleShutdown.cpu_threshold cfg)) as Heq.
    unfold flt in *.
    destruct (r * 100 <? IdleShutdown.cpu_threshold cfg)%float.
    + assert (forall a, (a = DryRunWouldStop (vm_name v) (r * 100)
                         \/ a = Stopped (vm_name v) (r * 100)
                         \/ a = ErrorStopping (vm_name v)) ->
                        action_name a = vm_name v /\
                        (action_state a = Some Idle <-> true = true) /\
                        (action_state a = Some Active <-> true <> true) /\
                        (feq (r * 100) (IdleShutdown.cpu_threshold cfg) ->
                         action_state a = Some Active)) as Hcases.
      { intros a [-> | [-> | ->]]; cbn [action_name action_state];
          repeat split; try congruence; try done;
          intros H; by elim (Heq H). }
      apply Hcases.
      destruct (IdleShutdown.dry_run cfg); [by left|].
      destruct (instances_stop w zone (vm_name v)); [right; by left|right; by right].
    + cbn [action_name action_state]. repeat split; try congruence; try done.
Qed.

(** Witness: [vm-a], first in the walk of the example fleet, opted in, with
    the readings 0.01, 0.03 and 0.02 over twelve hours and threshold 5. *)
Lemma classifier_threshold_witness :
  (exists e,
     rp_instances (body (CostAnalyzer.main Examples.report_cfg
                           (Examples.fleet (Returns tt) (PostRaises ""))).1) !! 0
     = Some e /\ ie_state e = Idle) /\
  (exists a,
     body (IdleShutdown.main (Examples.shutdown_cfg true)
             (Examples.fleet (Returns tt) (PostRaises ""))).1 !! 0
     = Some a /\ action_state a = Some Idle).
Proof.
  destruct (classifier_threshold 5 (Examples.fleet (Returns tt) (PostRaises ""))
              0 "us-central1-a" Examples.vm_a eq_refl) as (_ & _ & Hrep & Hshut).
  split.
  - destruct (Hrep Examples.report_cfg eq_refl) as (e & He & _ & Hidle & _).
    exists e. split; [exact He|]. apply Hidle. vm_compute. reflexivity.
  - destruct (Hshut (Examples.shutdown_cfg true) eq_refl eq_refl)
      as (a & Ha & _ & Hidle & _).
    exists a. split; [exact Ha|]. apply Hidle. vm_compute. reflexivity.
Defined.

(** C9. In both paths the output has exactly one entry per instance of the
    fleet walk, in the order of the walk: the zones in the order listed, and
    within a zone the instances in the order of its listing. *)
Theorem one_entry_per_instance_in_walk_order (w : world) :
  (forall cfg,
     map (fun e => (ie_zone e, ie_name e))
         (rp_instances (body (CostAnalyzer.main cfg w).1))
     = map (fun zv => (zv.1, vm_name zv.2)) (fleet_walk w)) /\
  (forall cfg,
     map action_name (body (IdleShutdown.main cfg w).1)
     = map (fun zv => vm_name zv.2) (fleet_walk w)) /\
  (forall cfg,
     length (rp_instances (body (CostAnalyzer.main cfg w).1))
     = length (fleet_walk w)) /\
  (forall cfg,
     length (body (IdleShutdown.main cfg w).1) = length (fleet_walk w)) /\
  fleet_walk w
  = flat_map (fun zone => map (pair zone) (zone_items w zone)) (zones_of w).
Proof.
  split; [|split; [|split; [|split]]].
  - intros cfg. rewrite report_instances, map_map. by apply map_ext.
  - intros cfg. rewrite shutdown_actions, map_map. apply map_ext.
    intros zv. unfold decide_action.
    repeat match goal with
           | |- context [if ?b then _ else _] => destruct b
           | |- context [match ?x with Returns _ => _ | Raises => _ end] => destruct x
           end; reflexivity.
  - intros cfg. by rewrite report_instances, length_map.
  - intros cfg. by rewrite shutdown_actions, length_map.
  - reflexivity.
Qed.

End BothPaths.

(** ** The end-to-end scenarios of the specification, run on the example fleet *)

Section Scenarios.
Import Py Data Sys Shared Spec Examples.

(** Scenarios A, B and C: 2% is Idle and 10% is Active at threshold 5; an
    instance absent from billing with an [n1-standard-1] costs 1.14. *)
Example reporting_run :
  map (fun e => (ie_name e, ie_machine_type e, ie_cost_24h e, ie_state e))
      (rp_instances (body (CostAnalyzer.main report_cfg
                             (fleet (Returns tt) (PostResponse 202 ""))).1))
  = [("vm-a", "e2-medium", 1%float, Idle);
     ("vm-b", "e2-micro", 2%float, Active);
     ("vm-c", "n1-standard-1", 1.14%float, Idle)].
Proof. vm_compute. reflexivity. Qed.

(** Scenario D, dry run: the line says what would be stopped and the trace
    has no stop call. *)
Example shutdown_dry_run :
  IdleShutdown.main (shutdown_cfg true) (fleet (Returns tt) (PostRaises ""))
  = ({| body := [DryRunWouldStop "vm-a" 2; Skipping "vm-b"; Skipping "vm-c"];
        status_code := 200;
        headers := [("Content-Type", "application/json")] |},
     [ZonesList; InstancesList "us-central1-a";
      ListTimeSeries (Some "101") 720; InstancesList "europe-west1-b"]).
Proof. vm_compute. reflexivity. Qed.

(** Scenario D, real run: one stop call, and the instance is reported
    stopped. *)
Example shutdown_real_run :
  IdleShutdown.main (shutdown_cfg false) (fleet (Returns tt) (PostRaises ""))
  = ({| body := [Stopped "vm-a" 2; Skipping "vm-b"; Skipping "vm-c"];
        status_code := 200;
        headers := [("Content-Type", "application/json")] |},
     [ZonesList; InstancesList "us-central1-a";
      ListTimeSeries (Some "101") 720; InstancesStop "us-central1-a" "vm-a";
      InstancesList "europe-west1-b"]).
Proof. vm_compute. reflexivity. Qed.

(** Python's [round]: ties go by the exact binary value, then to even. *)
Example round_examples :
  Py.round 2.675 2 = 2.67%float /\ Py.round 0.125 2 = 0.12%float /\
  Py.round 1.00004 4 = 1%float /\ Py.round (-0.00001) 4 = (-0)%float.
Proof. repeat split; vm_compute; reflexivity. Qed.

End Scenarios.

(** ** The remote calls of the reporting path *)

Section ReportingTrace.
Import Py Data Sys Shared Spec Observe CostAnalyzer.

Lemma for_each_snd {S X} (ev : X -> list event) (body : S -> X -> io S)
    (xs : list X) :
  (forall s x, (body s x).2 = ev x) ->
  forall s, (for_each xs body s).2 = flat_map ev xs.
Proof.
  intros Hbody. induction xs as [|x xs IH]; intros s; [done|].
  cbn [for_each flat_map]. by rewrite bind_snd, Hbody, IH.
Qed.

Lemma process_zone_snd (cfg : config) (w : world)
    (billing_map : gmap string float) (st : acc) (zone : string) :
  (process_zone cfg w billing_map st zone).2 = report_zone_calls w zone.
Proof.
  unfold process_zone, report_zone_calls, zone_items.
  rewrite emit_bind. cbn [snd]. f_equal.
  destruct (instances_list w zone) as [[items|]|]; try done.
  by apply for_each_snd.
Qed.

(** The trace of the reporting run, in closed form. *)
Lemma main_trace (cfg : config) (w : world) :
  (main cfg w).2 =
  [ZonesList; BillingQuery]
  ++ flat_map (report_zone_calls w) (zones_of w)
  ++ (send_report_via_sendgrid w (sendgrid_key cfg) (admin_email cfg)
        (from_email cfg) (body (main cfg w).1)).2
  ++ [Log (LogEmailSendResult
             (send_report_via_sendgrid w (sendgrid_key cfg) (admin_email cfg)
                (from_email cfg) (body (main cfg w).1)).1)].
Proof.
  unfold main at 1. rewrite !bind_snd.
  change (list_zones w).2 with [ZonesList].
  change (query_billing w).2 with [BillingQuery].
  change (list_zones w).1 with (zones_of w).
  rewrite (for_each_snd (report_zone_calls w))
    by (intros; apply process_zone_snd).
  cbn [app]. do 3 f_equal.
Qed.

Lemma send_trace (w : world) (key admin from : string) (r : report) :
  (send_report_via_sendgrid w key admin from r).2 =
  if configured key admin from then
    RequestsPost (mail_of key admin from r)
    :: match requests_post w (mail_of key admin from r) with
       | PostResponse status text => [Log (LogSendGridStatus status text)]
       | PostRaises _ => [Log LogSendGridFailed]
       end
  else [Log LogSkippingSend].
Proof.
  unfold send_report_via_sendgrid, configured.
  fold (mail_of key admin from r).
  destruct (truthy key), (truthy admin), (truthy from); cbn [negb orb andb];
    try reflexivity.
  rewrite emit_bind. cbn [snd]. f_equal.
  destruct (requests_post w _) as [status text|msg]; [|reflexivity].
  rewrite emit_bind. cbn [snd]. by destruct (bool_decide _).
Qed.

Lemma send_value (w : world) (key admin from : string) (r : report) :
  (send_report_via_sendgrid w key admin from r).1 =
  if configured key admin from then
    match requests_post w (mail_of key admin from r) with
    | PostResponse status text =>
        if bool_decide (status = 200%Z \/ status = 202%Z)
        then Sent status else NotSent status text
    | PostRaises msg => SendException msg
    end
  else MissingConfig.
Proof.
  unfold send_report_via_sendgrid, configured.
  fold (mail_of key admin from r).
  destruct (truthy key), (truthy admin), (truthy from); cbn [negb orb andb];
    try reflexivity.
  rewrite emit_bind. cbn [fst].
  destruct (requests_post w _) as [status text|msg]; [|reflexivity].
  rewrite emit_bind. cbn [fst]. by destruct (bool_decide _).
Qed.

End ReportingTrace.

(** ** The remote calls of the shutdown path *)

Section ShutdownTrace.
Import Py Data Sys Shared Spec Observe IdleShutdown.

Lemma get_cpu_usage_snd (w : world) (zone : string) (id : option string)
    (minutes : Z) :
  (get_cpu_usage w zone id minutes).2 =
  ListTimeSeries id minutes
  :: (if raised (cpu_avg_try w id minutes) then [Log LogMonitoringFailed] else []).
Proof.
  unfold get_cpu_usage. by destruct (cpu_avg_try w id minutes).
Qed.

Lemma vm_calls_closed (cfg : config) (w : world) (zv : string * vm) :
  vm_calls cfg w zv = shutdown_vm_trace (cpu_threshold cfg) (dry_run cfg) w zv.
Proof.
  unfold vm_calls, shutdown_vm_trace, stop_candidate, process_vm.
  rewrite opted_in_test.
  destruct (bool_decide (opted_in zv.2)); cbn [negb andb]; [|done].
  rewrite bind_snd, get_cpu_usage_snd, get_cpu_usage_reading.
  fold (cpu_pct_12h w zv.2). cbn [app]. f_equal. f_equal.
  destruct (cpu_pct_12h w zv.2 <? cpu_threshold cfg)%float; [|done].
  destruct (dry_run cfg); [done|]. cbn [negb].
  by destruct (instances_stop w zv.1 (vm_name zv.2)).
Qed.

Lemma zone_calls_closed (cfg : config) (w : world) (zone : string) :
  zone_calls cfg w zone
  = shutdown_zone_trace (cpu_threshold cfg) (dry_run cfg) w zone.
Proof.
  unfold zone_calls, shutdown_zone_trace, process_zone, zone_items.
  rewrite emit_bind. cbn [snd]. f_equal.
  destruct (instances_list w zone) as [[items|]|]; cbn [raised app map]; try done.
  rewrite (for_each_extend
             (fun v => [decide_action (cpu_threshold cfg) (dry_run cfg) w (zone, v)])
             (fun v => vm_calls cfg w (zone, v)))
    by (intros; apply process_vm_spec).
  cbn [snd]. rewrite flat_map_map. apply flat_map_ext.
  intros v. apply vm_calls_closed.
Qed.

Lemma shutdown_main_trace (cfg : config) (w : world) :
  (main cfg w).2
  = ZonesList
    :: flat_map (shutdown_zone_trace (cpu_threshold cfg) (dry_run cfg) w)
                (zones_of w).
Proof.
  rewrite main_spec. cbn [snd]. f_equal.
  apply flat_map_ext. intros zone. apply zone_calls_closed.
Qed.

Lemma omap_cons' {A B} (f : A -> option B) (x : A) (l : list A) :
  omap f (x :: l)
  = match f x with Some y => y :: omap f l | None => omap f l end.
Proof. reflexivity. Qed.

(** The events of a run that a filter keeps, walked instance by instance,
    when the filter drops the listing calls and their failure lines. *)
Lemma shutdown_trace_by_vm {B} (f : event -> option B) (cfg : config)
    (w : world) :
  f ZonesList = None ->
  (forall z, f (InstancesList z) = None) ->
  (forall z, f (Log (LogListInstancesFailed z)) = None) ->
  omap f (main cfg w).2
  = flat_map (fun zv => omap f (shutdown_vm_trace (cpu_threshold cfg)
                                   (dry_run cfg) w zv))
             (fleet_walk w).
Proof.
  intros Hz Hl Hf. rewrite shutdown_main_trace, omap_cons', Hz.
  unfold fleet_walk. rewrite flat_map_flat_map.
  induction (zones_of w) as [|zone zones IH]; [done|].
  cbn [flat_map]. rewrite omap_app, IH. f_equal.
  unfold shutdown_zone_trace. rewrite omap_cons', Hl, omap_app.
  assert (omap f (if raised (instances_list w zone)
                  then [Log (LogListInstancesFailed zone)] else []) = []) as ->.
  { destruct (raised _); [|done]. by rewrite omap_cons', Hf. }
  cbn [app].
  induction (map (pair zone) (zone_items w zone)) as [|zv l IHl]; [done|].
  cbn [flat_map]. by rewrite omap_app, IHl.
Qed.

End ShutdownTrace.

(** ** Zone enumeration and the fleet inventory *)

Section Inventory.
Import Py Data Sys Shared Spec Observe.

Lemma zone_names_all (names : list string) :
  zone_names (map Some names) = Returns names.
Proof.
  induction names as [|n names IH]; [done|]. simpl. by rewrite IH.
Qed.

Lemma zone_names_missing (items : list (option string)) :
  None ∈ items -> zone_names items = Raises.
Proof.
  induction items as [|[n|] items IH]; intros Hin.
  - by apply elem_of_nil in Hin.
  - apply elem_of_cons in Hin as [Hin|Hin]; [done|].
    simpl. by rewrite IH.
  - done.
Qed.

Lemma filter_id {A} (p : A -> bool) (l : list A) :
  Forall (fun x => p x = true) l -> List.filter p l = l.
Proof.
  induction 1 as [|x l Hx _ IH]; [done|]. simpl. by rewrite Hx, IH.
Qed.

Lemma filter_none {A} (p : A -> bool) (l : list A) :
  Forall (fun x => p x = false) l -> List.filter p l = [].
Proof.
  induction 1 as [|x l Hx _ IH]; [done|]. simpl. by rewrite Hx, IH.
Qed.

Lemma report_queries_flat (p : event -> bool) (vs : list vm) :
  (forall id m, p (ListTimeSeries id m) = false) ->
  List.filter p (flat_map report_queries vs) = [].
Proof.
  intros Hp. induction vs as [|v vs IH]; [done|].
  cbn [flat_map report_queries app List.filter]. by rewrite !Hp.
Qed.

Lemma send_events_only (p : event -> bool) (w : world)
    (key admin from : string) (r : report) :
  (forall m, p (RequestsPost m) = false) ->
  (forall l, p (Log l) = false) ->
  List.filter p (CostAnalyzer.send_report_via_sendgrid w key admin from r).2 = [].
Proof.
  intros Hpost Hlog. rewrite send_trace.
  destruct (configured key admin from); cbn [List.filter].
  - rewrite Hpost. destruct (requests_post w _); cbn [List.filter];
      by rewrite Hlog.
  - by rewrite Hlog.
Qed.

Lemma shutdown_vm_trace_filter (p : event -> bool) (t : float) (dry : bool)
    (w : world) (zv : string * vm) :
  (forall id m, p (ListTimeSeries id m) = false) ->
  (forall z n, p (InstancesStop z n) = false) ->
  (forall l, p (Log l) = false) ->
  List.filter p (shutdown_vm_trace t dry w zv) = [].
Proof.
  intros Hq Hs Hl. unfold shutdown_vm_trace.
  destruct (bool_decide _); [|done].
  cbn [List.filter]. rewrite Hq, List.filter_app.
  destruct (raised (cpu_avg_try _ _ _)); cbn [List.filter]; rewrite ?Hl;
    destruct (stop_candidate t w zv && negb dry); cbn [List.filter app];
      rewrite ?Hs; try done;
    destruct (raised (instances_stop _ _ _)); cbn [List.filter];
      by rewrite ?Hl.
Qed.

(** X1. Zone enumeration (both files): when the zone listing raises, has
    no ["items"], or has an item without a ["name"], the run visits the single
    zone [us-central1-a]; otherwise it visits the listed names in order, and
    none at all when the list is empty.  In both functions the instance
    listings requested are exactly those of the zones visited, in order. *)
Theorem zone_enumeration_fallback (w : world) :
  (zones_list w = Raises -> zones_of w = ["us-central1-a"]) /\
  (zones_list w = Returns None -> zones_of w = ["us-central1-a"]) /\
  (forall items, zones_list w = Returns (Some items) -> None ∈ items ->
     zones_of w = ["us-central1-a"]) /\
  (forall names, zones_list w = Returns (Some (map Some names)) ->
     zones_of w = names) /\
  (forall cfg, List.filter is_instances_list (CostAnalyzer.main cfg w).2
               = map InstancesList (zones_of w)) /\
  (forall cfg, List.filter is_instances_list (IdleShutdown.main cfg w).2
               = map InstancesList (zones_of w)).
Proof.
  unfold zones_of. split; [by intros ->|]. split; [by intros ->|].
  split; [|split; [|split]].
  - intros items -> Hmiss. by rewrite zone_names_missing.
  - intros names ->. by rewrite zone_names_all.
  - intros cfg. fold (zones_of w). rewrite main_trace, !List.filter_app.
    rewrite send_events_only by done. cbn [List.filter is_instances_list app].
    rewrite app_nil_r.
    induction (zones_of w) as [|zone zones IH]; [done|].
    cbn [flat_map map]. rewrite List.filter_app, IH. unfold report_zone_calls.
    cbn [List.filter is_instances_list]. by rewrite report_queries_flat.
  - intros cfg. fold (zones_of w).
    rewrite shutdown_main_trace. cbn [List.filter is_instances_list].
    induction (zones_of w) as [|zone zones IH]; [done|].
    cbn [flat_map map]. rewrite List.filter_app, IH. unfold shutdown_zone_trace.
    cbn [List.filter is_instances_list]. rewrite List.filter_app.
    assert (List.filter is_instances_list
              (if raised (instances_list w zone)
               then [Log (LogListInstancesFailed zone)] else []) = []) as ->
      by (by destruct (raised _)).
    rewrite filter_flat_map.
    assert (flat_map (fun zv => List.filter is_instances_list
                        (shutdown_vm_trace (IdleShutdown.cpu_threshold cfg)
                           (IdleShutdown.dry_run cfg) w zv))
                     (map (pair zone) (zone_items w zone)) = []) as ->; [|done].
    induction (map (pair zone) (zone_items w zone)) as [|zv l IHl]; [done|].
    cbn [flat_map]. by rewrite IHl, shutdown_vm_trace_filter.
Qed.

(** Witness: a zone listing whose second item has no name. *)
Lemma zone_enumeration_fallback_witness :
  zones_of {| zones_list := Returns (Some [Some "europe-west1-b"; None]);
              instances_list := fun _ => Raises;
              list_time_series := fun _ _ => Raises;
              billing_rows := Raises;
              instances_stop := fun _ _ => Raises;
              requests_post := fun _ => PostRaises "" |}
  = ["us-central1-a"].
Proof.
  apply (proj1 (proj2 (proj2 (zone_enumeration_fallback _)))
           [Some "europe-west1-b"; None]).
  - reflexivity.
  - apply list_elem_of_further, list_elem_of_here.
Defined.

(** X2. The report lists an entry exactly for every instance that a
    visited zone's listing returned: a zone whose listing raises or has no
    ["items"] adds nothing and does not stop the walk, and no entry is made
    up. *)
Theorem report_entries_are_listed_instances (cfg : CostAnalyzer.config)
    (w : world) (e : instance_entry) :
  e ∈ rp_instances (body (CostAnalyzer.main cfg w).1) <->
  exists zone items v,
    zone ∈ zones_of w /\
    instances_list w zone = Returns (Some items) /\
    v ∈ items /\
    e = record_of (CostAnalyzer.cpu_threshold cfg) w (zone, v).
Proof.
  rewrite report_instances, list_elem_of_In, in_map_iff. split.
  - intros ([zone v] & <- & Hin). unfold fleet_walk in Hin.
    apply in_flat_map in Hin as (zone' & Hzone & Hin).
    apply in_map_iff in Hin as (v' & [= <- <-] & Hv).
    unfold zone_items in Hv.
    destruct (instances_list w zone') as [[items|]|] eqn:Hlist; try done.
    exists zone', items, v'. by rewrite <- !list_elem_of_In in *.
  - intros (zone & items & v & Hzone & Hlist & Hv & ->).
    exists (zone, v). split; [done|]. unfold fleet_walk.
    apply in_flat_map. exists zone. split; [by apply list_elem_of_In|].
    apply in_map. unfold zone_items. rewrite Hlist. by apply list_elem_of_In.
Qed.

End Inventory.

(** ** What the reporting run calls, and what it sends *)

Section ReportingCalls.
Import Py Data Sys Shared Spec Observe CostAnalyzer.

Lemma report_zone_calls_kept (p : event -> bool) (w : world)
    (zones : list string) :
  (forall z, p (InstancesList z) = true) ->
  (forall id m, p (ListTimeSeries id m) = true) ->
  List.filter p (flat_map (report_zone_calls w) zones)
  = flat_map (report_zone_calls w) zones.
Proof.
  intros Hl Hq. apply filter_id, Forall_forall. intros e He.
  apply list_elem_of_In, in_flat_map in He as (zone & _ & He).
  unfold report_zone_calls in He. destruct He as [<-|He]; [done|].
  apply in_flat_map in He as (v & _ & He).
  unfold report_queries in He. by destruct He as [<-|[<-|[]]].
Qed.

Lemma report_zone_calls_dropped (p : event -> bool) (w : world)
    (zones : list string) :
  (forall z, p (InstancesList z) = false) ->
  (forall id m, p (ListTimeSeries id m) = false) ->
  List.filter p (flat_map (report_zone_calls w) zones) = [].
Proof.
  intros Hl Hq. apply filter_none, Forall_forall. intros e He.
  apply list_elem_of_In, in_flat_map in He as (zone & _ & He).
  unfold report_zone_calls in He. destruct He as [<-|He]; [done|].
  apply in_flat_map in He as (v & _ & He).
  unfold report_queries in He. by destruct He as [<-|[<-|[]]].
Qed.

(** X3. The remote reads of a reporting run, in order: the zone listing,
    one billing query, then for each visited zone its instance listing
    followed, for each listed instance, by the 1-hour and the 12-hour
    monitoring query.  Every instance of the walk is queried exactly twice. *)
Theorem reporting_reads (cfg : config) (w : world) :
  List.filter (fun e => negb (is_send_event e)) (main cfg w).2
  = [ZonesList; BillingQuery]
    ++ flat_map (fun zone =>
                   InstancesList zone
                   :: flat_map (fun v => [ListTimeSeries (vm_id v) 60;
                                         ListTimeSeries (vm_id v) 720])
                               (zone_items w zone))
                (zones_of w) /\
  List.filter is_metrics_query (main cfg w).2
  = flat_map (fun zv => [ListTimeSeries (vm_id zv.2) 60;
                         ListTimeSeries (vm_id zv.2) 720])
             (fleet_walk w).
Proof.
  rewrite main_trace, !List.filter_app.
  rewrite !send_events_only by done. split.
  - rewrite report_zone_calls_kept by done. by rewrite !app_nil_r.
  - cbn [List.filter is_metrics_query app]. rewrite !app_nil_r.
    unfold fleet_walk. rewrite flat_map_flat_map.
    induction (zones_of w) as [|zone zones IH]; [done|].
    cbn [flat_map]. rewrite List.filter_app, IH. f_equal.
    unfold report_zone_calls. cbn [List.filter is_metrics_query].
    rewrite flat_map_map.
    induction (zone_items w zone) as [|v vs IHv]; [done|].
    cbn [flat_map report_queries app List.filter is_metrics_query snd].
    by rewrite IHv.
Qed.

(** X4. The reporting run never stops an instance and never changes
    anything remotely other than sending the mail: whatever the [dry_run]
    setting, its trace holds no stop call, and [dry_run] reaches nothing but
    the [dry_run] field of the report. *)
Theorem reporting_never_stops (cfg : config) (w : world) (dry : bool) :
  let cfg' := {| project := project cfg;
                 cpu_threshold := cpu_threshold cfg;
                 dry_run := dry;
                 admin_email := admin_email cfg;
                 sendgrid_key := sendgrid_key cfg;
                 from_email := from_email cfg |} in
  List.filter is_stop_call (main cfg' w).2 = [] /\
  rp_instances (body (main cfg' w).1) = rp_instances (body (main cfg w).1) /\
  rp_total_cost_24h (body (main cfg' w).1)
  = rp_total_cost_24h (body (main cfg w).1) /\
  rp_dry_run (body (main cfg' w).1) = dry /\
  List.filter (fun e => negb (is_send_event e)) (main cfg' w).2
  = List.filter (fun e => negb (is_send_event e)) (main cfg w).2.
Proof.
  cbv zeta. split; [|split; [|split; [|split]]].
  - rewrite main_trace, !List.filter_app.
    rewrite send_events_only by done.
    by rewrite report_zone_calls_dropped.
  - by rewrite !report_instances.
  - by rewrite !report_total.
  - by rewrite main_response.
  - rewrite !main_trace, !List.filter_app.
    by rewrite !send_events_only.
Qed.

(** X5. [send_report_via_sendgrid] never posts when one of the key, the
    recipient or the sender is empty: it returns the missing-config result.
    Otherwise it posts exactly once, with the bearer key, the two addresses
    and the report; the result is "sent" exactly when the answer has status
    200 or 202, "not sent" with status and body for any other status, and the
    exception text when the request raises. *)
Theorem sendgrid_outcomes (w : world) (key admin from : string) (r : report) :
  let out := send_report_via_sendgrid w key admin from r in
  let m := mail_of key admin from r in
  (configured key admin from = false ->
     out = (MissingConfig, [Log LogSkippingSend])) /\
  (configured key admin from = true ->
     List.filter is_post out.2 = [RequestsPost m] /\
     (forall status,
        out.1 = Sent status <->
        (exists text, requests_post w m = PostResponse status text) /\
        (status = 200%Z \/ status = 202%Z)) /\
     (forall status text,
        requests_post w m = PostResponse status text ->
        status <> 200%Z -> status <> 202%Z -> out.1 = NotSent status text) /\
     (forall msg,
        requests_post w m = PostRaises msg -> out.1 = SendException msg)).
Proof.
  cbv zeta. split.
  - intros Hc. apply injective_projections; cbn [fst snd].
    + by rewrite send_value, Hc.
    + by rewrite send_trace, Hc.
  - intros Hc. rewrite send_trace, send_value, Hc.
    split; [|split; [|split]].
    + cbn [List.filter is_post]. by destruct (requests_post w _).
    + intros status.
      destruct (requests_post w _) as [status' text|msg].
      * case_bool_decide as Hs.
        -- split.
           ++ intros [= <-]. split; [by eexists|done].
           ++ intros [[text' [= <- _]] _]. done.
        -- split; [done|]. intros [[text' [= <- _]] Hs']. done.
      * split; [done|]. by intros [[text' ?] _].
    + intros status text -> H200 H202.
      rewrite bool_decide_eq_false_2; [done|]. by intros [?|?].
    + by intros msg ->.
Qed.

(** Witness: all three settings present and SendGrid answers 202. *)
Lemma sendgrid_outcomes_witness :
  (send_report_via_sendgrid (Examples.fleet Raises (PostResponse 202 "")) "key"
     "ops@example.com" "bot@example.com"
     {| rp_project := "demo"; rp_total_cost_24h := 0;
        rp_instances := []; rp_dry_run := true |}).1
  = Sent 202.
Proof.
  destruct (proj2 (sendgrid_outcomes
                     (Examples.fleet Raises (PostResponse 202 ""))
                     "key" "ops@example.com" "bot@example.com"
                     {| rp_project := "demo"; rp_total_cost_24h := 0;
                        rp_instances := []; rp_dry_run := true |})
                  eq_refl) as (_ & Hsent & _).
  apply Hsent. split; [by exists ""|by right].
Defined.

(** X6. A reporting run posts at most one mail, after all its reads, and
    the report it mails is the report it returns; the last thing it does is
    log the result of the attempt. *)
Theorem mailed_report_is_returned_report (cfg : config) (w : world) :
  let r := body (main cfg w).1 in
  let key := sendgrid_key cfg in
  let admin := admin_email cfg in
  let from := from_email cfg in
  List.filter is_post (main cfg w).2
  = (if configured key admin from
     then [RequestsPost (mail_of key admin from r)] else []) /\
  (exists reads notes,
     (main cfg w).2 = reads ++ notes /\
     Forall (fun e => is_send_event e = false) reads /\
     Forall (fun e => is_send_event e = true) notes) /\
  last (main cfg w).2
  = Some (Log (LogEmailSendResult
                 (send_report_via_sendgrid w key admin from r).1)).
Proof.
  cbv zeta. split; [|split].
  - rewrite main_trace, !List.filter_app.
    rewrite report_zone_calls_dropped by done.
    cbn [List.filter is_post app]. rewrite app_nil_r, send_trace.
    destruct (configured _ _ _); [|done].
    cbn [List.filter is_post]. by destruct (requests_post w _).
  - eexists ([ZonesList; BillingQuery]
             ++ flat_map (report_zone_calls w) (zones_of w)), _.
    split.
    { rewrite main_trace at 1. by rewrite app_assoc. }
    split.
    + apply Forall_app. split; [by repeat constructor|].
      apply Forall_forall. intros e He.
      apply list_elem_of_In, in_flat_map in He as (zone & _ & He).
      unfold report_zone_calls in He. destruct He as [<-|He]; [done|].
      apply in_flat_map in He as (v & _ & He).
      unfold report_queries in He. by destruct He as [<-|[<-|[]]].
    + apply Forall_app. split; [|by repeat constructor].
      rewrite send_trace. destruct (configured _ _ _).
      * destruct (requests_post w _); by repeat constructor.
      * by repeat constructor.
  - rewrite main_trace at 1. by rewrite !app_assoc, last_snoc.
Qed.

End ReportingCalls.

(** ** What the shutdown run calls, logs and previews *)

Section ShutdownCalls.
Import Py Data Sys Shared Spec Observe IdleShutdown.

Lemma omap_flat_map {X A B} (f : A -> option B) (g : X -> list A)
    (xs : list X) :
  omap f (flat_map g xs) = flat_map (fun x => omap f (g x)) xs.
Proof.
  induction xs as [|x xs IH]; [done|].
  cbn [flat_map]. by rewrite omap_app, IH.
Qed.

Lemma omap_map_singleton {X A B} (f : A -> option B) (g : X -> A)
    (xs : list X) :
  omap f (map g xs) = flat_map (fun x => omap f [g x]) xs.
Proof.
  induction xs as [|x xs IH]; [done|].
  cbn [map flat_map]. rewrite <- IH, !omap_cons'.
  by destruct (f (g x)).
Qed.

(** X7. The remote calls and log lines of a shutdown run, in order: the
    zone listing, then for each visited zone its instance listing (with a log
    line when it raises), then for each opted-in instance of the zone the
    12-hour monitoring query (with a log line when it fails) and, outside
    dry-run mode and below the threshold, the stop call (with a log line when
    it raises).  The run never queries billing and never posts a mail. *)
Theorem shutdown_calls (cfg : config) (w : world) :
  (main cfg w).2
  = ZonesList
    :: flat_map (fun zone =>
         InstancesList zone
         :: (if raised (instances_list w zone)
             then [Log (LogListInstancesFailed zone)] else [])
         ++ flat_map (shutdown_vm_trace (cpu_threshold cfg) (dry_run cfg) w)
                     (map (pair zone) (zone_items w zone)))
       (zones_of w) /\
  List.filter (fun e => is_billing_query e || is_post e) (main cfg w).2 = [].
Proof.
  split; [apply shutdown_main_trace|].
  rewrite shutdown_main_trace. cbn [List.filter is_billing_query is_post orb].
  apply filter_none, Forall_forall. intros e He.
  apply list_elem_of_In, in_flat_map in He as (zone & _ & He).
  unfold shutdown_zone_trace in He. destruct He as [<-|He]; [done|].
  apply in_app_or in He as [He|He].
  - destruct (raised _); [|done]. by destruct He as [<-|[]].
  - apply in_flat_map in He as (zv & _ & He).
    apply list_elem_of_In in He.
    assert (e ∈ List.filter (fun e => is_billing_query e || is_post e)
                  (shutdown_vm_trace (cpu_threshold cfg) (dry_run cfg) w zv)
            -> False) as Hno.
    { rewrite shutdown_vm_trace_filter by done. apply not_elem_of_nil. }
    destruct (is_billing_query e || is_post e) eqn:Hp; [|done].
    exfalso. apply Hno. rewrite list_elem_of_In. apply filter_In.
    by rewrite <- list_elem_of_In.
Qed.

(** X8. The log of a shutdown run matches its response: the instances
    with a "failed to stop" log line are exactly those with an error line, in
    the same order; and the zones with a "could not list instances" line are
    exactly the visited zones whose listing raised. *)
Theorem failures_are_logged (cfg : config) (w : world) :
  omap stop_failure_logged (main cfg w).2
  = omap error_name (body (main cfg w).1) /\
  omap listing_failure_logged (main cfg w).2
  = List.filter (fun zone => raised (instances_list w zone)) (zones_of w).
Proof.
  split.
  - rewrite shutdown_trace_by_vm by done.
    rewrite shutdown_actions, omap_map_singleton.
    apply flat_map_ext. intros zv.
    unfold shutdown_vm_trace, decide_action, stop_candidate.
    destruct (bool_decide (opted_in zv.2)); cbn [andb]; [|done].
    rewrite omap_cons'. cbn [stop_failure_logged]. rewrite omap_app.
    assert (omap stop_failure_logged
              (if raised (cpu_avg_try w (vm_id zv.2) (60 * 12))
               then [Log LogMonitoringFailed] else []) = []) as ->
      by (by destruct (raised _)).
    cbn [app].
    destruct (cpu_pct_12h w zv.2 <? cpu_threshold cfg)%float;
      cbn [andb]; [|done].
    destruct (dry_run cfg); cbn [negb]; [done|].
    by destruct (instances_stop w zv.1 (vm_name zv.2)).
  - rewrite shutdown_main_trace, omap_cons'. cbn [listing_failure_logged].
    induction (zones_of w) as [|zone zones IH]; [done|].
    cbn [flat_map List.filter]. rewrite omap_app, IH.
    unfold shutdown_zone_trace at 1. rewrite omap_cons'.
    cbn [listing_failure_logged]. rewrite omap_app.
    assert (omap listing_failure_logged
              (flat_map (shutdown_vm_trace (cpu_threshold cfg) (dry_run cfg) w)
                        (map (pair zone) (zone_items w zone))) = []) as ->.
    { rewrite omap_flat_map.
      induction (map (pair zone) (zone_items w zone)) as [|zv l IHl]; [done|].
      cbn [flat_map]. rewrite IHl, app_nil_r.
      unfold shutdown_vm_trace.
      destruct (bool_decide _); [|done].
      rewrite omap_cons'. cbn [listing_failure_logged]. rewrite omap_app.
      repeat match goal with
             | |- context [if ?b then _ else _] => destruct b
             end; reflexivity. }
    rewrite app_nil_r. by destruct (raised (instances_list w zone)).
Qed.

(** X9. A dry run previews the real run: at the same threshold and on the
    same snapshot, the instances named on the "would stop" lines of the dry
    run are exactly the instances for which the real run issues a stop call,
    in the same order, and the two runs make the same monitoring queries. *)
Theorem dry_run_previews_stops (t : float) (w : world) (project : string) :
  let dry := {| IdleShutdown.project := project; cpu_threshold := t;
                dry_run := true |} in
  let real := {| IdleShutdown.project := project; cpu_threshold := t;
                 dry_run := false |} in
  omap would_stop (body (main dry w).1) = omap stopped_name (main real w).2 /\
  List.filter is_stop_call (main dry w).2 = [] /\
  List.filter is_metrics_query (main dry w).2
  = List.filter is_metrics_query (main real w).2.
Proof.
  cbv zeta. split; [|split].
  - rewrite shutdown_trace_by_vm by done.
    rewrite shutdown_actions, omap_map_singleton.
    apply flat_map_ext. intros zv. cbn [cpu_threshold dry_run]. symmetry.
    unfold shutdown_vm_trace, decide_action, stop_candidate.
    destruct (bool_decide (opted_in zv.2)); cbn [andb]; [|done].
    rewrite omap_cons'. cbn [stopped_name]. rewrite omap_app.
    assert (omap stopped_name
              (if raised (cpu_avg_try w (vm_id zv.2) (60 * 12))
               then [Log LogMonitoringFailed] else []) = []) as ->
      by (by destruct (raised _)).
    cbn [app negb].
    destruct (cpu_pct_12h w zv.2 <? t)%float; cbn [andb]; [|done].
    by destruct (raised (instances_stop w zv.1 (vm_name zv.2))).
  - rewrite main_calls_filter by done.
    induction (fleet_walk w) as [|zv walk IH]; [done|].
    cbn [flat_map]. rewrite IH, vm_calls_stop. cbn [dry_run].
    by rewrite andb_false_r.
  - rewrite !main_calls_filter by done.
    apply flat_map_ext. intros zv. by rewrite !vm_calls_metrics.
Qed.

End ShutdownCalls.

(** ** Missing data *)

Section MissingData.
Import Py Data Sys Shared Spec Observe.

Lemma no_data_reading (w : world) (v : vm) :
  no_data w v -> reading_12h w v = 0%float.
Proof.
  unfold no_data, reading_12h. rewrite get_cpu_avg_value, cpu_avg_try_spec.
  destruct (list_time_series w (vm_id v) (60 * 12)) as [it|]; [|done].
  destruct (iter_outcome it) as [series|]; [|done].
  by intros ->.
Qed.

(** X10. No monitoring data reads as 0% utilization.  When the 12-hour
    query for an instance raises, its iteration raises, or it returns no
    numeric point, then at any threshold above zero the reporting path lists
    the instance as Idle with [cpu_avg_12h_pct] 0.0, and the shutdown path,
    if the instance is opted in, writes the "would stop" line in dry-run mode
    and otherwise issues the stop call. *)
Theorem no_data_is_idle (t : float) (w : world) (i : nat) (zone : string)
    (v : vm) :
  fleet_walk w !! i = Some (zone, v) ->
  no_data w v ->
  flt 0 t ->
  (forall cfg, CostAnalyzer.cpu_threshold cfg = t ->
     exists e, rp_instances (body (CostAnalyzer.main cfg w).1) !! i = Some e /\
               ie_name e = vm_name v /\ ie_state e = Idle /\
               ie_cpu_avg_12h_pct e = 0%float) /\
  (forall cfg, IdleShutdown.cpu_threshold cfg = t -> opted_in v ->
     (IdleShutdown.dry_run cfg = true ->
        body (IdleShutdown.main cfg w).1 !! i
        = Some (DryRunWouldStop (vm_name v) 0)) /\
     (IdleShutdown.dry_run cfg = false ->
        InstancesStop zone (vm_name v) ∈ (IdleShutdown.main cfg w).2)).
Proof.
  intros Hi Hno Ht. pose proof (no_data_reading w v Hno) as Hr.
  unfold flt in Ht. split.
  - intros cfg <-. eexists. split.
    { rewrite report_instances, lookup_map, Hi. reflexivity. }
    unfold record_of, classify;
      cbn [ie_name ie_state ie_cpu_avg_12h_pct fst snd].
    rewrite Hr. change (0 * 100)%float with 0%float. rewrite Ht.
    by repeat split.
  - intros cfg <- Hin. split.
    + intros Hdry. rewrite (shutdown_action_at cfg w i (zone, v) Hi).
      unfold decide_action, cpu_pct_12h; cbn [fst snd].
      rewrite (bool_decide_eq_true_2 _ Hin), Hr, Hdry.
      change (0 * 100)%float with 0%float. by rewrite Ht.
    + intros Hdry. apply list_elem_of_In.
      apply (proj1 (filter_In is_stop_call _ _)).
      rewrite main_calls_filter by done. apply in_flat_map.
      exists (zone, v). split.
      { apply list_elem_of_In. by eapply list_elem_of_lookup_2. }
      rewrite vm_calls_stop. unfold stop_candidate, cpu_pct_12h; cbn [fst snd].
      rewrite (bool_decide_eq_true_2 _ Hin), Hr, Hdry.
      change (0 * 100)%float with 0%float. rewrite Ht. by left.
Qed.

(** Witness: the monitoring query for [vm-c] raises; here it is given the
    opt-in label. *)
Lemma no_data_is_idle_witness :
  InstancesStop "europe-west1-b" "vm-a"
  ∈ (IdleShutdown.main (Examples.shutdown_cfg false) monitoring_down).2.
Proof.
  refine (proj2 (proj2 (no_data_is_idle 5 monitoring_down 0 "europe-west1-b"
                          Examples.vm_a eq_refl I eq_refl)
                       (Examples.shutdown_cfg false) eq_refl eq_refl) eq_refl).
Defined.

(** X11. A run in which no visited zone lists an instance (every listing
    raises, lacks ["items"], or is empty) still answers with status 200: the
    report has no instances and a total of 0.0, and the shutdown result is
    the empty list. *)
Theorem nothing_listed_gives_empty_outputs (w : world) :
  (forall zone items,
     zone ∈ zones_of w -> instances_list w zone = Returns (Some items) ->
     items = []) ->
  (forall cfg,
     (CostAnalyzer.main cfg w).1
     = {| body := {| rp_project := CostAnalyzer.project cfg;
                     rp_total_cost_24h := 0;
                     rp_instances := [];
                     rp_dry_run := CostAnalyzer.dry_run cfg |};
          status_code := 200;
          headers := [("Content-Type", "application/json")] |}) /\
  (forall cfg,
     (IdleShutdown.main cfg w).1
     = {| body := [];
          status_code := 200;
          headers := [("Content-Type", "application/json")] |}).
Proof.
  intros Hnone.
  assert (fleet_walk w = []) as Hwalk.
  { unfold fleet_walk.
    assert (Forall (fun zone => zone ∈ zones_of w) (zones_of w)) as Hall
      by (by apply Forall_forall).
    induction Hall as [|zone zones Hzone _ IH]; [done|].
    cbn [flat_map]. rewrite IH, app_nil_r. unfold zone_items.
    destruct (instances_list w zone) as [[items|]|] eqn:Hl; try done.
    by rewrite (Hnone zone items Hzone Hl). }
  split; intros cfg.
  - rewrite main_response, Hwalk. reflexivity.
  - rewrite main_spec, Hwalk. reflexivity.
Qed.

(** Witness: every remote call fails. *)
Lemma nothing_listed_gives_empty_outputs_witness :
  body (IdleShutdown.main (Examples.shutdown_cfg false) outage).1 = [] /\
  rp_instances (body (CostAnalyzer.main Examples.report_cfg outage).1) = [].
Proof.
  assert (forall zone items,
            zone ∈ zones_of outage ->
            instances_list outage zone = Returns (Some items) -> items = [])
    as Hnone by (intros zone items _ [=]).
  destruct (nothing_listed_gives_empty_outputs outage Hnone) as [Hrep Hshut].
  split.
  - by rewrite (Hshut (Examples.shutdown_cfg false)).
  - by rewrite (Hrep Examples.report_cfg).
Defined.

End MissingData.

(** ** The billing dictionary *)

Section Billing.
Import Py Data Sys Shared Spec Observe CostAnalyzer.

Lemma last_cost_cons (n : string) (r : row) (rows : list row) :
  last_cost n (r :: rows)
  = match last_cost n rows with
    | Some c => Some c
    | None => if row_named n r then row_cost_24h r else None
    end.
Proof.
  unfold last_cost. cbn [List.filter].
  destruct (row_named n r); [|by destruct (last _)].
  rewrite omap_cons'. destruct (row_cost_24h r) as [c|]; [|by destruct (last _)].
  by rewrite last_cons.
Qed.

Lemma billing_dict_lookup (rows : list row) (d : gmap string float) :
  Forall (fun r => kept r = true -> is_Some (row_cost_24h r)) rows ->
  exists d', billing_dict rows d = Returns d' /\
    forall n, d' !! n
              = match (if truthy n then last_cost n rows else None) with
                | Some c => Some c
                | None => d !! n
                end.
Proof.
  intros Hrows. revert d.
  induction Hrows as [|r rows Hr _ IH]; intros d.
  - exists d. split; [done|]. intros n. by destruct (truthy n).
  - cbn [billing_dict]. unfold kept in Hr.
    destruct (row_instance_name r) as [m|] eqn:Hname.
    + destruct (truthy m) eqn:Hm.
      * destruct (Hr eq_refl) as [c Hc]. rewrite Hc.
        destruct (IH (<[m:=c]> d)) as (d' & -> & Hd'). exists d'.
        split; [done|]. intros n. rewrite Hd', last_cost_cons.
        unfold row_named. rewrite Hname, Hc.
        destruct (truthy n) eqn:Hn; [|destruct (decide (m = n)) as [->|Hne]].
        -- destruct (last_cost n rows); [done|].
           case_bool_decide as Heq.
           ++ injection Heq as ->. by rewrite lookup_insert_eq.
           ++ rewrite lookup_insert_ne; [done|]. by intros ->.
        -- congruence.
        -- by rewrite lookup_insert_ne.
      * destruct (IH d) as (d' & -> & Hd'). exists d'. split; [done|].
        intros n. rewrite Hd', last_cost_cons. unfold row_named. rewrite Hname.
        destruct (truthy n) eqn:Hn; [|done].
        destruct (last_cost n rows); [done|].
        rewrite bool_decide_eq_false_2; [done|]. intros [= ->]. congruence.
    + destruct (IH d) as (d' & -> & Hd'). exists d'. split; [done|].
      intros n. rewrite Hd', last_cost_cons. unfold row_named. rewrite Hname.
      destruct (truthy n); [|done]. by destruct (last_cost n rows).
Qed.

Lemma billing_dict_raises (rows : list row) (d : gmap string float) :
  Exists (fun r => kept r = true /\ row_cost_24h r = None) rows ->
  billing_dict rows d = Raises.
Proof.
  intros Hbad. revert d.
  induction Hbad as [r rows [Hk Hc]|r rows _ IH]; intros d; cbn [billing_dict].
  - unfold kept in Hk. destruct (row_instance_name r) as [m|]; [|done].
    by rewrite Hk, Hc.
  - destruct (row_instance_name r) as [m|]; [|apply IH].
    destruct (truthy m); [|apply IH].
    destruct (row_cost_24h r); [apply IH|done].
Qed.

(** X12. The billing map built by [query_billing]: when the query raises,
    or when some row with a non-empty name has no cost ([float(None)] raises),
    the map is empty, so every instance falls back to the estimate; otherwise
    the map sends each non-empty name to the cost of the last row carrying
    it, and the empty name is never a key. *)
Theorem billing_map_contents (w : world) :
  (billing_rows w = Raises -> billing_map_of w = ∅) /\
  (forall rows, billing_rows w = Returns rows ->
     Exists (fun r => kept r = true /\ row_cost_24h r = None) rows ->
     billing_map_of w = ∅) /\
  (forall rows, billing_rows w = Returns rows ->
     Forall (fun r => kept r = true -> is_Some (row_cost_24h r)) rows ->
     forall n, billing_map_of w !! n
               = if truthy n then last_cost n rows else None) /\
  (billing_map_of w = ∅ ->
   forall name machine_type,
     resolve_cost name machine_type (billing_map_of w)
     = (estimate_cost_by_machine machine_type * 24)%float).
Proof.
  unfold billing_map_of, query_billing. cbn [fst bind emit ret snd].
  split; [by intros ->|]. split; [|split].
  - intros rows -> Hbad. by rewrite billing_dict_raises.
  - intros rows -> Hok n.
    destruct (billing_dict_lookup rows ∅ Hok) as (d' & -> & Hd').
    rewrite Hd'. destruct (truthy n); [|done].
    by destruct (last_cost n rows).
  - intros -> name machine_type. unfold resolve_cost. by rewrite lookup_empty.
Qed.

(** Witness: in the example fleet the third row has no name and is
    skipped; [vm-b] is billed 2.00004. *)
Lemma billing_map_contents_witness :
  billing_map_of (Examples.fleet Raises (PostRaises "")) !! "vm-b"
  = Some 2.00004%float.
Proof.
  refine (proj1 (proj2 (proj2 (billing_map_contents
                                 (Examples.fleet Raises (PostRaises ""))))) _
            eq_refl _ "vm-b").
  repeat constructor; intros _; by eexists.
Defined.

End Billing.

(** ** The machine type of an instance *)

Section MachineType.
Import Py Data Sys Shared Spec Observe CostAnalyzer.

Lemma split_nonempty (sep : Ascii.ascii) (s : string) : split sep s <> [].
Proof.
  destruct s as [|c rest]; cbn [split]; [done|].
  destruct (Ascii.eqb c sep); [done|]. by destruct (split sep rest).
Qed.

Lemma join_split (sep : Ascii.ascii) (s : string) :
  join (String sep EmptyString) (split sep s) = s.
Proof.
  induction s as [|c rest IH]; [done|]. cbn [split].
  pose proof (split_nonempty sep rest) as Hne.
  destruct (Ascii.eqb c sep) eqn:Hc.
  - apply Ascii.eqb_eq in Hc as ->.
    destruct (split sep rest) as [|p ps]; [done|].
    cbn [join]. cbn [join] in IH. by rewrite IH.
  - destruct (split sep rest) as [|p ps]; [done|].
    destruct ps as [|q qs]; cbn [join] in *; by rewrite <- IH.
Qed.

Lemma split_no_sep (sep : Ascii.ascii) (s : string) :
  contains sep s = false -> split sep s = [s].
Proof.
  induction s as [|c rest IH]; [done|]. cbn [contains split].
  intros [Hc Hrest]%orb_false_iff. by rewrite Hc, (IH Hrest).
Qed.

Lemma split_app (sep : Ascii.ascii) (a b : string) :
  split sep (a ++ String sep b) = split sep a ++ split sep b.
Proof.
  induction a as [|c a IH]; simpl.
  - by rewrite Ascii.eqb_refl.
  - rewrite IH. destruct (Ascii.eqb c sep); [done|].
    pose proof (split_nonempty sep a) as Hne.
    by destruct (split sep a).
Qed.

Lemma split_parts_no_sep (sep : Ascii.ascii) (s : string) :
  Forall (fun p => contains sep p = false) (split sep s).
Proof.
  induction s as [|c rest IH]; cbn [split]; [by repeat constructor|].
  destruct (Ascii.eqb c sep) eqn:Hc; [by constructor|].
  destruct (split sep rest) as [|p ps].
  { constructor; [|constructor]. cbn [contains]. by rewrite Hc. }
  inversion IH as [|? ? Hp Hps]; subst. constructor; [|done].
  cbn [contains]. by rewrite Hc, Hp.
Qed.

Lemma last_app_nonempty {A} (l1 l2 : list A) (d : A) :
  l2 <> [] -> List.last (l1 ++ l2) d = List.last l2 d.
Proof.
  intros Hne. induction l1 as [|x l1 IH]; [done|].
  cbn [app]. destruct (l1 ++ l2) eqn:E; [|exact IH].
  apply app_eq_nil in E as [_ ->]. done.
Qed.

Lemma last_in_or_default {A} (P : A -> Prop) (l : list A) (d : A) :
  P d -> Forall P l -> P (List.last l d).
Proof.
  intros Hd Hl. induction Hl as [|x l Hx Hl IH]; [done|].
  destruct l; [done|]. exact IH.
Qed.

(** X13. The machine type shown and costed is the last path segment of
    [machineType]: splitting on ["/"] loses nothing ([join] restores the
    string), the extracted type never contains a ["/"], a value without
    ["/"] is taken whole, and [prefix/segment] gives [segment]. *)
Theorem machine_type_is_last_segment (s : string) :
  join "/" (split "/" s) = s /\
  contains "/" (machine_type_of s) = false /\
  (contains "/" s = false -> machine_type_of s = s) /\
  (forall prefix,
     contains "/" s = false ->
     machine_type_of (prefix ++ String "/" s) = s).
Proof.
  split; [apply join_split|]. split; [|split].
  - unfold machine_type_of. destruct (truthy s); [|done].
    apply (last_in_or_default (fun p => contains "/" p = false)); [done|].
    apply split_parts_no_sep.
  - intros Hno. unfold machine_type_of.
    destruct s as [|c rest]; [done|]. cbn [truthy].
    by rewrite split_no_sep.
  - intros prefix Hno. unfold machine_type_of.
    assert (truthy (prefix ++ String "/" s) = true) as ->
      by (by destruct prefix).
    rewrite split_app, last_app_nonempty by apply split_nonempty.
    by rewrite split_no_sep.
Qed.

(** Witness: the full resource path of [vm-a]. *)
Lemma machine_type_is_last_segment_witness :
  machine_type_of
    "https://www.googleapis.com/compute/v1/projects/p/zones/us-central1-a/machineTypes/e2-medium"
  = "e2-medium".
Proof.
  exact (proj2 (proj2 (proj2 (machine_type_is_last_segment "e2-medium")))
           "https://www.googleapis.com/compute/v1/projects/p/zones/us-central1-a/machineTypes"
           eq_refl).
Defined.

(** X14. An instance that is not billed and whose record has no
    [machineType], an empty one, or one ending in ["/"] is reported with the
    empty machine type and costed at the default rate: 0.05 * 24, shown as
    1.2. *)
Theorem missing_machine_type_costs_default (cfg : config) (w : world)
    (i : nat) (zone : string) (v : vm) :
  fleet_walk w !! i = Some (zone, v) ->
  billing_map_of w !! vm_name v = None ->
  (vm_machineType v = None \/ vm_machineType v = Some EmptyString \/
   exists prefix : string, vm_machineType v = Some (prefix ++ "/")%string) ->
  vm_cost (billing_map_of w) v = (0.05 * 24)%float /\
  exists e, rp_instances (body (main cfg w).1) !! i = Some e /\
            ie_name e = vm_name v /\
            ie_machine_type e = EmptyString /\
            ie_cost_24h e = 1.2%float.
Proof.
  intros Hi Hbill Htype.
  assert (vm_machine_type v = EmptyString) as Hmt.
  { unfold vm_machine_type.
    destruct Htype as [->|[->|[prefix ->]]]; [done|done|].
    change (default EmptyString (Some (prefix ++ "/")%string))
      with (prefix ++ "/")%string.
    unfold machine_type_of.
    assert (truthy (prefix ++ "/")%string = true) as ->
      by (by destruct prefix).
    change (prefix ++ "/")%string
      with (prefix ++ String "/" EmptyString)%string.
    by rewrite split_app, last_app_nonempty. }
  assert (vm_cost (billing_map_of w) v = (0.05 * 24)%float) as Hcost.
  { unfold vm_cost, resolve_cost. by rewrite Hbill, Hmt. }
  split; [done|]. eexists. split.
  { rewrite report_instances, lookup_map, Hi. reflexivity. }
  unfold record_of, classify; cbn [ie_name ie_machine_type ie_cost_24h fst snd].
  rewrite Hcost, Hmt. split; [reflexivity|]. split; [reflexivity|].
  vm_compute. reflexivity.
Qed.

(** Witness: a record with nothing but its name, billing unavailable. *)
Lemma missing_machine_type_costs_default_witness :
  vm_cost (billing_map_of bare_fleet) bare_vm = (0.05 * 24)%float /\
  exists e, rp_instances (body (main Examples.report_cfg bare_fleet).1) !! 0
            = Some e /\
            ie_name e = "vm-x" /\
            ie_machine_type e = EmptyString /\
            ie_cost_24h e = 1.2%float.
Proof.
  exact (missing_machine_type_costs_default Examples.report_cfg bare_fleet
           0 "us-central1-a" bare_vm eq_refl eq_refl (or_introl eq_refl)).
Defined.

End MachineType.

(** ** Raising the threshold *)

Section Threshold.
Import Py Data Sys Shared Spec Observe.

(** The order of binary64 values is transitive across [<] and [<=]. *)
Lemma flt_fle_trans (x a b : float) : flt x a -> fle a b -> flt x b.
Proof.
  unfold flt, fle. rewrite !FloatAxioms.ltb_spec, FloatAxioms.leb_spec.
  generalize (Prim2SF x) (Prim2SF a) (Prim2SF b). intros sx sa sb.
  unfold SFltb, SFleb, SFcompare.
  destruct sx as [[]|[]| |[] mx ex], sa as [[]|[]| |[] ma ea],
           sb as [[]|[]| |[] mb eb];
    try discriminate; try reflexivity;
    repeat match goal with
           | |- context [PosDef.Pos.compare_cont Eq ?p ?q] =>
               change (PosDef.Pos.compare_cont Eq p q) with (Pos.compare p q)
           end;
    repeat match goal with
           | |- context [Z.compare ?p ?q] => destruct (Z.compare_spec p q)
           | |- context [Pos.compare ?p ?q] => destruct (Pos.compare_spec p q)
           end; cbn [CompOpp]; try discriminate; try reflexivity; try lia.
Qed.

(** X15. Raising the threshold never turns an idle instance active: on
    the same snapshot, an instance the report lists as Idle at threshold [t1]
    is listed as Idle at every threshold [t2 >= t1], and an instance whose
    shutdown action line is a stop kind (would stop, stopped, error) at [t1]
    has a stop-kind line at [t2]. *)
Theorem raising_threshold_keeps_idle (t1 t2 : float) (w : world) (i : nat) :
  fle t1 t2 ->
  (forall cfg1 cfg2 e1,
     CostAnalyzer.cpu_threshold cfg1 = t1 ->
     CostAnalyzer.cpu_threshold cfg2 = t2 ->
     rp_instances (body (CostAnalyzer.main cfg1 w).1) !! i = Some e1 ->
     ie_state e1 = Idle ->
     exists e2,
       rp_instances (body (CostAnalyzer.main cfg2 w).1) !! i = Some e2 /\
       ie_name e2 = ie_name e1 /\ ie_zone e2 = ie_zone e1 /\
       ie_state e2 = Idle) /\
  (forall cfg1 cfg2 a1,
     IdleShutdown.cpu_threshold cfg1 = t1 ->
     IdleShutdown.cpu_threshold cfg2 = t2 ->
     body (IdleShutdown.main cfg1 w).1 !! i = Some a1 ->
     action_state a1 = Some Idle ->
     exists a2,
       body (IdleShutdown.main cfg2 w).1 !! i = Some a2 /\
       action_name a2 = action_name a1 /\
       action_state a2 = Some Idle).
Proof.
  intros Hle. split.
  - intros cfg1 cfg2 e1 <- <-. rewrite !report_instances, !lookup_map.
    intros (zv & Hzv & ->)%fmap_Some Hidle. rewrite Hzv.
    eexists. split; [reflexivity|].
    unfold record_of, classify in *. cbn [ie_name ie_zone ie_state] in *.
    split; [done|]. split; [done|].
    destruct (_ <? CostAnalyzer.cpu_threshold cfg1)%float eqn:H1; [|done].
    by rewrite (flt_fle_trans _ _ _ H1 Hle).
  - intros cfg1 cfg2 a1 <- <-. rewrite !shutdown_actions, !lookup_map.
    intros (zv & Hzv & ->)%fmap_Some Hidle. rewrite Hzv.
    eexists. split; [reflexivity|].
    unfold decide_action in *.
    destruct (bool_decide (opted_in zv.2)); [|done].
    destruct (_ <? IdleShutdown.cpu_threshold cfg1)%float eqn:H1; [|done].
    rewrite (flt_fle_trans _ _ _ H1 Hle).
    destruct (IdleShutdown.dry_run cfg1), (IdleShutdown.dry_run cfg2);
      destruct (instances_stop w zv.1 (vm_name zv.2)); by split.
Qed.

(** Witness: [vm-a] of the example fleet, at 2%, for thresholds 5 and 10. *)
Lemma raising_threshold_keeps_idle_witness :
  exists a2,
    body (IdleShutdown.main
            {| IdleShutdown.project := "demo";
               IdleShutdown.cpu_threshold := 10;
               IdleShutdown.dry_run := true |}
            (Examples.fleet Raises (PostRaises ""))).1 !! 0 = Some a2 /\
    action_name a2 = "vm-a" /\ action_state a2 = Some Idle.
Proof.
  exact (proj2 (raising_threshold_keeps_idle 5 10
                  (Examples.fleet Raises (PostRaises "")) 0 eq_refl)
               (Examples.shutdown_cfg false)
               {| IdleShutdown.project := "demo";
                  IdleShutdown.cpu_threshold := 10;
                  IdleShutdown.dry_run := true |}
               (ErrorStopping "vm-a") eq_refl eq_refl eq_refl eq_refl).
Defined.

End Threshold.

(** ** Reading the configuration *)

Section Configuration.
Import Py Config.

Lemma lower_char_is (c l u : Ascii.ascii) :
  lower_char l = l -> lower_char u = l ->
  (forall c', lower_char c' = l -> c' = l \/ c' = u) ->
  lower_char c = l <-> c = l \/ c = u.
Proof.
  intros Hl Hu Honly. split; [apply Honly|]. by intros [->| ->].
Qed.

Lemma lower_char_t (c : Ascii.ascii) :
  lower_char c = "t"%char <-> c = "t"%char \/ c = "T"%char.
Proof.
  apply lower_char_is; [done|done|].
  intros [[] [] [] [] [] [] [] []]; vm_compute; intros [=]; auto.
Qed.

Lemma lower_char_r (c : Ascii.ascii) :
  lower_char c = "r"%char <-> c = "r"%char \/ c = "R"%char.
Proof.
  apply lower_char_is; [done|done|].
  intros [[] [] [] [] [] [] [] []]; vm_compute; intros [=]; auto.
Qed.

Lemma lower_char_u (c : Ascii.ascii) :
  lower_char c = "u"%char <-> c = "u"%char \/ c = "U"%char.
Proof.
  apply lower_char_is; [done|done|].
  intros [[] [] [] [] [] [] [] []]; vm_compute; intros [=]; auto.
Qed.

Lemma lower_char_e (c : Ascii.ascii) :
  lower_char c = "e"%char <-> c = "e"%char \/ c = "E"%char.
Proof.
  apply lower_char_is; [done|done|].
  intros [[] [] [] [] [] [] [] []]; vm_compute; intros [=]; auto.
Qed.

Lemma lower_is_true (s : string) :
  lower s = "true" <->
  exists c1 c2 c3 c4,
    s = String c1 (String c2 (String c3 (String c4 EmptyString))) /\
    (c1 = "t" \/ c1 = "T")%char /\ (c2 = "r" \/ c2 = "R")%char /\
    (c3 = "u" \/ c3 = "U")%char /\ (c4 = "e" \/ c4 = "E")%char.
Proof.
  split.
  - destruct s as [|c1 [|c2 [|c3 [|c4 [|c5 rest]]]]]; cbn [lower]; try done.
    intros [= H1 H2 H3 H4]. exists c1, c2, c3, c4.
    by rewrite <- lower_char_t, <- lower_char_r, <- lower_char_u, <- lower_char_e.
  - intros (c1 & c2 & c3 & c4 & -> & H1 & H2 & H3 & H4). cbn [lower].
    apply lower_char_t in H1. apply lower_char_r in H2.
    apply lower_char_u in H3. apply lower_char_e in H4.
    by rewrite H1, H2, H3, H4.
Qed.

(** X16. The dry-run flag (both files): it is on when [DRY_RUN] is unset,
    and when it is set exactly when its value is ["true"] in any mix of
    upper and lower case.  Any other value, such as ["1"], ["yes"] or the
    empty string, turns dry-run off. *)
Theorem dry_run_flag (environ : gmap string string) :
  (environ !! "DRY_RUN" = None -> read_dry_run environ = true) /\
  (forall value, environ !! "DRY_RUN" = Some value ->
     (read_dry_run environ = true <->
      exists c1 c2 c3 c4,
        value = String c1 (String c2 (String c3 (String c4 EmptyString))) /\
        (c1 = "t" \/ c1 = "T")%char /\ (c2 = "r" \/ c2 = "R")%char /\
        (c3 = "u" \/ c3 = "U")%char /\ (c4 = "e" \/ c4 = "E")%char)) /\
  (forall value, environ !! "DRY_RUN" = Some value ->
     value = "1" \/ value = "yes" \/ value = "on" \/ value = EmptyString ->
     read_dry_run environ = false).
Proof.
  unfold read_dry_run. split; [by intros ->|]. split.
  - intros value ->. cbn [default from_option id].
    by rewrite String.eqb_eq, lower_is_true.
  - by intros value -> [->|[->|[->| ->]]].
Qed.

(** Witness: [DRY_RUN=True]. *)
Lemma dry_run_flag_witness :
  read_dry_run {[ "DRY_RUN" := "True" ]} = true.
Proof.
  apply (proj1 (proj2 (dry_run_flag {[ "DRY_RUN" := "True" ]})) "True");
    [reflexivity|].
  exists "T"%char, "r"%char, "u"%char, "e"%char. auto 10.
Defined.

Lemma py_or_truthy (a b : option string) :
  truthy_opt (py_or a b) = truthy_opt a || truthy_opt b.
Proof. unfold py_or. by destruct (truthy_opt a) eqn:E; rewrite ?E. Qed.

(** X17. Project resolution: both functions take [GCP_PROJECT] when it is
    set and non-empty, else [GOOGLE_CLOUD_PROJECT] when it is set and
    non-empty, else the platform-default project when there is one; an empty
    variable is passed over like an unset one.  Only the shutdown function
    then falls back to [PROJECT]; whenever one of the first three sources is
    non-empty the two functions resolve the same project. *)
Theorem project_resolution (environ : gmap string string)
    (default_project : option string) :
  let gcp := environ !! "GCP_PROJECT" in
  let google := environ !! "GOOGLE_CLOUD_PROJECT" in
  (truthy_opt gcp = true ->
     report_project environ default_project = gcp /\
     shutdown_project environ default_project = gcp) /\
  (truthy_opt gcp = false -> truthy_opt google = true ->
     report_project environ default_project = google /\
     shutdown_project environ default_project = google) /\
  (truthy_opt gcp = false -> truthy_opt google = false ->
     report_project environ default_project = default_project /\
     (truthy_opt default_project = true ->
        shutdown_project environ default_project = default_project) /\
     (truthy_opt default_project = false ->
        shutdown_project environ default_project = environ !! "PROJECT")) /\
  (truthy_opt (report_project environ default_project) = true ->
     shutdown_project environ default_project
     = report_project environ default_project).
Proof.
  cbv zeta. unfold report_project, shutdown_project, py_or.
  destruct (truthy_opt (environ !! "GCP_PROJECT")) eqn:Hg;
    rewrite ?Hg;
    destruct (truthy_opt (environ !! "GOOGLE_CLOUD_PROJECT")) eqn:Hc;
    rewrite ?Hc, ?Hg;
    destruct (truthy_opt default_project) eqn:Hd; rewrite ?Hd;
    repeat split; try done; try (intros; congruence).
Qed.

(** Witness: an empty [GCP_PROJECT] is passed over. *)
Lemma project_resolution_witness :
  report_project {[ "GCP_PROJECT" := ""; "GOOGLE_CLOUD_PROJECT" := "demo" ]} None
  = Some "demo" /\
  shutdown_project {[ "GCP_PROJECT" := ""; "GOOGLE_CLOUD_PROJECT" := "demo" ]} None
  = Some "demo".
Proof.
  exact (proj1 (proj2 (project_resolution
                         {[ "GCP_PROJECT" := ""; "GOOGLE_CLOUD_PROJECT" := "demo" ]}
                         None))
               eq_refl eq_refl).
Defined.

End Configuration.
